(** * Terrain prospecting: land-parcel union, metrics and zoning

    A shallow embedding of [report.py] ([TerrainAnalyzer],
    [ZoningCalculator]) and of the request handlers of [app.py] that read the
    parcel store ([load_geojson], [get_bairros], [get_lotes_by_bairro],
    [unir_lotes], [get_lote_info]).

    Conventions of the embedding.
    - Python [float] is IEEE binary64, given by the [spec_float] operations of
      the Standard Library at precision 53.  [round(x, n)] follows CPython:
      the exact binary value is rounded half-even to [n] decimals and the
      decimal is converted back to the nearest double.
    - A raised exception is the [Raise] case of [result]; the payload is
      [str(e)], the only thing the source ever reads from an exception.
      Message texts that the source does not write itself are representative.
    - The geometry library (shapely, pyproj) is an interface, [GeoLib]: its
      operations are the calls the source makes, and each may raise.
    - A method of [TerrainAnalyzer] is a state transformer over the object
      ([self.gdf], [self.unified_geometry]) together with the list of calls
      made to the geometry library so far.
    - The geometry of a parcel can be missing ([None]), as in a geopandas
      table: a null cell of the file is decoded to [None], and a missing
      geometry stays missing under reprojection and selection.
    - A column of a table holds cells of one type, as columns read from a
      columnar file do.
    - [logger] calls do not influence any result and are left out, except
      where evaluating the logged expression itself can raise. *)

From Stdlib Require Import ZArith String List Sorted Permutation Lia.
From Stdlib Require Import SpecFloat.
From stdpp Require Import base option list gmap strings.

Set Default Proof Using "Type".

(** ** Python floats *)

Module PyFloat.
Local Open Scope Z_scope.

Definition float : Type := spec_float.
Definition prec : Z := 53.
Definition emax : Z := 1024.

(** [float(z)] for an integer that fits; also how an [int] operand is
    converted when it meets a [float] in [*] or [/]. *)
Definition of_Z (z : Z) : float := binary_normalize prec emax z 0 false.

Definition mul : float → float → float := SFmul prec emax.
Definition div : float → float → float := SFdiv prec emax.

(** Nearest double to the fraction [±n/d]. *)
Definition of_ratio (s : bool) (n d : positive) : float :=
  SFdiv prec emax (S754_finite s n 0) (S754_finite false d 0).

(** The decimal literal [m * 10^e], as written in the source
    ([1.0] is [lit 10 (-1)], [0.5] is [lit 5 (-1)]). *)
Definition lit (m : positive) (e : Z) : float :=
  if 0 <=? e then of_Z (Z.pos m * 10 ^ e)
  else of_ratio false m (Z.to_pos (10 ^ (- e))).

Definition is_nan (x : float) : bool :=
  match x with S754_nan => true | _ => false end.

Definition is_inf (x : float) : bool :=
  match x with S754_infinity _ => true | _ => false end.

Definition eqb : float → float → bool := SFeqb.
Definition ltb : float → float → bool := SFltb.

(** Nearest integer to [n/d], ties to even; [0 < d]. *)
Definition round_half_even (n d : Z) : Z :=
  let q := n / d in
  match 2 * (n mod d) ?= d with
  | Lt => q
  | Gt => q + 1
  | Eq => if Z.even q then q else q + 1
  end.

(** [round(x, ndigits)] for [ndigits >= 0].  Infinities, NaN and zeros
    round to themselves; the sign of a value rounded to zero is kept. *)
Definition round (x : float) (ndigits : nat) : float :=
  match x with
  | S754_finite s m e =>
      let p := 10 ^ Z.of_nat ndigits in
      let k := if 0 <=? e then Z.pos m * 2 ^ e * p
               else round_half_even (Z.pos m * p) (2 ^ (- e)) in
      match k with
      | Zpos kp => of_ratio s kp (Z.to_pos p)
      | _ => S754_zero s
      end
  | _ => x
  end.

(** Exact comparison of a float with an integer; [None] for NaN. *)
Definition compare_Z (x : float) (z : Z) : option comparison :=
  match x with
  | S754_nan => None
  | S754_zero _ => Some (0 ?= z)
  | S754_infinity s => Some (if s then Lt else Gt)
  | S754_finite s m e =>
      let v := if s then Z.neg m else Z.pos m in
      Some (if 0 <=? e then v * 2 ^ e ?= z else v ?= z * 2 ^ (- e))
  end.
End PyFloat.

Abbreviation float := PyFloat.float.

(** ** Exceptions *)

Inductive result (A : Type) : Type :=
  | Ok (a : A)
  | Raise (e : string).
Arguments Ok {A} a.
Arguments Raise {A} e.

Definition result_bind {A B} (m : result A) (k : A → result B) : result B :=
  match m with
  | Ok a => k a
  | Raise e => Raise e
  end.

#[global] Instance result_mbind : MBind result :=
  λ A B k m, result_bind m k.
#[global] Instance result_mret : MRet result := @Ok.
#[global] Instance result_fmap : FMap result :=
  λ A B f m, match m with Ok a => Ok (f a) | Raise e => Raise e end.

Fixpoint for_each {A S} (f : S → A → result S) (xs : list A) (s : S)
  : result S :=
  match xs with
  | [] => Ok s
  | x :: xs' => s' ← f s x; for_each f xs' s'
  end.

(** ** Python values held in table cells and in parameter dictionaries *)

Inductive Scalar : Type :=
  | SNone
  | SInt (z : Z)
  | SFloat (f : float)
  | SStr (s : string).

(** A dictionary value: one scalar, or a Python list (or tuple) of them. *)
Inductive PyVal : Type :=
  | One (v : Scalar)
  | Many (vs : list Scalar).

(** [pandas.isna] *)
Definition isna (v : Scalar) : bool :=
  match v with
  | SNone => true
  | SFloat f => PyFloat.is_nan f
  | _ => false
  end.

(** [a == b] *)
Definition py_eqb (a b : Scalar) : bool :=
  match a, b with
  | SNone, SNone => true
  | SInt x, SInt y => (x =? y)%Z
  | SFloat x, SFloat y => PyFloat.eqb x y
  | SStr x, SStr y => String.eqb x y
  | SInt x, SFloat y | SFloat y, SInt x =>
      match PyFloat.compare_Z y x with Some Eq => true | _ => false end
  | _, _ => false
  end.

(** [a < b]; ordering [None] or a string against a number is a [TypeError]. *)
Definition py_lt (a b : Scalar) : result bool :=
  match a, b with
  | SInt x, SInt y => Ok (x <? y)%Z
  | SFloat x, SFloat y => Ok (PyFloat.ltb x y)
  | SStr x, SStr y => Ok (String.ltb x y)
  | SInt x, SFloat y =>
      Ok match PyFloat.compare_Z y x with Some Gt => true | _ => false end
  | SFloat x, SInt y =>
      Ok match PyFloat.compare_Z x y with Some Lt => true | _ => false end
  | _, _ => Raise "'<' not supported between instances"
  end.

(** [sorted(values)]: a stable sort that only asks [<]. *)
Fixpoint py_insert (x : Scalar) (l : list Scalar) : result (list Scalar) :=
  match l with
  | [] => Ok [x]
  | y :: l' =>
      lt ← py_lt y x;
      if lt : bool then r ← py_insert x l'; Ok (y :: r)
      else Ok (x :: y :: l')
  end.

Fixpoint sorted (l : list Scalar) : result (list Scalar) :=
  match l with
  | [] => Ok []
  | x :: l' => r ← sorted l'; py_insert x r
  end.

#[global] Instance spec_float_eq_dec : EqDecision spec_float.
Proof. solve_decision. Defined.
#[global] Instance Scalar_eq_dec : EqDecision Scalar.
Proof. solve_decision. Defined.
#[global] Instance PyVal_eq_dec : EqDecision PyVal.
Proof. solve_decision. Defined.

(** ** Tables (pandas) *)

(** A column as it comes out of a columnar file: every cell has the column's
    type.  A missing string is [None]; a missing number is NaN. *)
Inductive Column : Type :=
  | StrCol (cells : list (option string))
  | IntCol (cells : list Z)
  | FloatCol (cells : list float).

(** [series.tolist()] *)
Definition tolist (c : Column) : list Scalar :=
  match c with
  | StrCol cells => from_option SStr SNone <$> cells
  | IntCol cells => SInt <$> cells
  | FloatCol cells => SFloat <$> cells
  end.

(** [series.dropna()] *)
Definition dropna (values : list Scalar) : list Scalar :=
  List.filter (λ v, negb (isna v)) values.

(** [series.unique()]: distinct values in order of first appearance. *)
Fixpoint unique_from (seen values : list Scalar) : list Scalar :=
  match values with
  | [] => []
  | v :: rest =>
      if existsb (py_eqb v) seen then unique_from seen rest
      else v :: unique_from (v :: seen) rest
  end.

Definition unique (values : list Scalar) : list Scalar := unique_from [] values.

(** Position of index [i] in a table of [n] rows, as [iloc] resolves it:
    negative indices count from the end. *)
Definition position (n : nat) (i : Z) : option nat :=
  if bool_decide (0 ≤ i < Z.of_nat n)%Z then Some (Z.to_nat i)
  else if bool_decide (- Z.of_nat n ≤ i < 0)%Z then Some (Z.to_nat (i + Z.of_nat n))
  else None.

Definition take {A} (cells : list A) (rows : list nat) : option (list A) :=
  mapM (λ r, cells !! r) rows.

Definition take_column (c : Column) (rows : list nat) : option Column :=
  match c with
  | StrCol cells => StrCol <$> take cells rows
  | IntCol cells => IntCol <$> take cells rows
  | FloatCol cells => FloatCol <$> take cells rows
  end.

(** ** The geometry library (shapely, pyproj) *)

Class GeoLib : Type := {
  Geometry : Type;
  (** [shapely.from_wkb] on one encoded geometry *)
  from_wkb : list Byte.byte → result Geometry;
  (** [shapely.ops.unary_union] on a list whose items are geometries or
      [None]; what it returns is a geometry *)
  unary_union : list (option Geometry) → result Geometry;
  (** the coordinate transformation from a source to a target CRS; building
      it is what fails when a CRS is unknown or unusable *)
  transformer : string → string → result (Geometry → Geometry);
  (** [geom.area], [geom.length], [geom.centroid], [geom.bounds] *)
  geom_area : Geometry → float;
  geom_length : Geometry → float;
  geom_centroid : Geometry → float * float;
  geom_bounds : Geometry → float * float * float * float
}.

Section Program.
Context {L : GeoLib}.

(** ** Geo tables (geopandas) *)

(** One row per parcel; the geometry cell of a row is a geometry or [None]. *)
Record GeoDataFrame : Type := {
  attrs : list (string * Column);
  geometry : list (option Geometry);
  crs : option string
}.

(** [len(gdf)] *)
Definition len (gdf : GeoDataFrame) : nat := length (geometry gdf).

(** [list(gdf.columns)]: the attribute columns, then the geometry column. *)
Definition columns (gdf : GeoDataFrame) : list string :=
  (fst <$> attrs gdf) ++ ["geometry"].

(** [col in gdf.columns] *)
Definition has_column (gdf : GeoDataFrame) (col : string) : bool :=
  bool_decide (col ∈ columns gdf).

Fixpoint assoc (col : string) (cols : list (string * Column)) : option Column :=
  match cols with
  | [] => None
  | (name, c) :: cols' => if String.eqb col name then Some c else assoc col cols'
  end.

(** [gdf[col]] for an attribute column, as a list of cells.  The source
    reads the geometry column through [gdf.geometry] only. *)
Definition getitem (gdf : GeoDataFrame) (col : string) : result (list Scalar) :=
  match assoc col (attrs gdf) with
  | Some c => Ok (tolist c)
  | None => Raise ("'" ++ col ++ "'")
  end.

Definition take_attrs (cols : list (string * Column)) (rows : list nat)
  : option (list (string * Column)) :=
  mapM (λ '(name, c), c' ← take_column c rows; Some (name, c')) cols.

(** [gdf.iloc[indices]] for a list of integer positions *)
Definition iloc (gdf : GeoDataFrame) (indices : list Z) : result GeoDataFrame :=
  match mapM (position (len gdf)) indices with
  | None => Raise "positional indexers are out-of-bounds"
  | Some rows =>
      match take_attrs (attrs gdf) rows, take (geometry gdf) rows with
      | Some cols, Some geoms =>
          Ok {| attrs := cols; geometry := geoms; crs := crs gdf |}
      | _, _ => Raise "positional indexers are out-of-bounds"
      end
  end.

(** [gdf.to_crs(dst)]; a missing geometry stays missing *)
Definition to_crs (gdf : GeoDataFrame) (dst : string) : result GeoDataFrame :=
  match crs gdf with
  | None => Raise "Cannot transform naive geometries.  Please set a crs on the object first."
  | Some src =>
      f ← transformer src dst;
      Ok {| attrs := attrs gdf; geometry := fmap (M := option) f <$> geometry gdf;
            crs := Some dst |}
  end.

(** ** report.py: TerrainAnalyzer *)

Record TerrainAnalyzer : Type := {
  gdf : GeoDataFrame;
  unified_geometry : option Geometry
}.

(** [TerrainAnalyzer(geodataframe)] *)
Definition new_analyzer (geodataframe : GeoDataFrame) : TerrainAnalyzer :=
  {| gdf := geodataframe; unified_geometry := None |}.

(** Calls made to the geometry library, oldest first. *)
Inductive LibCall : Type :=
  | CallUnaryUnion (geometries : list (option Geometry))
  | CallToCrs (dst : string).

Record Run : Type := {
  self : TerrainAnalyzer;
  lib_calls : list LibCall
}.

Definition M (A : Type) : Type := Run → result A * Run.

Definition M_ret {A} (a : A) : M A := λ r, (Ok a, r).

Definition M_bind {A B} (m : M A) (k : A → M B) : M B :=
  λ r, match m r with
       | (Ok a, r') => k a r'
       | (Raise e, r') => (Raise e, r')
       end.

#[global] Instance M_mret : MRet M := @M_ret.
#[global] Instance M_mbind : MBind M := λ A B k m, M_bind m k.

Definition raise {A} (e : string) : M A := λ r, (Raise e, r).

Definition lift {A} (m : result A) : M A := λ r, (m, r).

(** [try: body except Exception as e: handler(e)]; assignments made by the
    body before it raised stay in force. *)
Definition try_except {A} (body : M A) (handler : string → M A) : M A :=
  λ r, match body r with
       | (Ok a, r') => (Ok a, r')
       | (Raise e, r') => handler e r'
       end.

Definition get_self : M TerrainAnalyzer := λ r, (Ok (self r), r).

(** [self.unified_geometry = g] *)
Definition set_unified_geometry (g : option Geometry) : M unit :=
  λ r, (Ok tt, {| self := {| gdf := gdf (self r); unified_geometry := g |};
                  lib_calls := lib_calls r |}).

Definition logged {A} (c : LibCall) (m : result A) : M A :=
  λ r, (m, {| self := self r; lib_calls := lib_calls r ++ [c] |}).

Definition call_unary_union (geometries : list (option Geometry)) : M Geometry :=
  logged (CallUnaryUnion geometries) (unary_union geometries).

Definition call_to_crs (g : GeoDataFrame) (dst : string) : M GeoDataFrame :=
  logged (CallToCrs dst) (to_crs g dst).

(** [geometries[0]] *)
Definition first {A} (l : list A) : result A :=
  match l with
  | x :: _ => Ok x
  | [] => Raise "list index out of range"
  end.

(** The value returned is the one stored: the geometry cell of the single
    row, which can be [None], or the union. *)
Definition unify_lots : M (option Geometry) :=
  try_except
    (s ← get_self;
     let geometries := geometry (gdf s) in
     u ← (if length geometries =? 1 then lift (first geometries)
          else u ← call_unary_union geometries; mret (Some u));
     set_unified_geometry u;;
     mret u)
    (λ e, raise e).

(** [if self.unified_geometry is None: self.unify_lots()] *)
Definition ensure_unified : M unit :=
  s ← get_self;
  match unified_geometry s with
  | None => unify_lots;; mret tt
  | Some _ => mret tt
  end.

(** The text of the [AttributeError] for an attribute read on [None]. *)
Definition no_attribute (name : string) : string :=
  "'NoneType' object has no attribute '" ++ name ++ "'".

(** [obj.<name>] for an attribute of geometries; an [AttributeError] when
    [obj] is [None] *)
Definition attr {A} (name : string) (attribute : Geometry → A)
    (obj : option Geometry) : result A :=
  match obj with
  | Some g => Ok (attribute g)
  | None => Raise (no_attribute name)
  end.

(** [self.unified_geometry.<name>] *)
Definition unified_attr {A} (name : string) (attribute : Geometry → A) : M A :=
  s ← get_self;
  lift (attr name attribute (unified_geometry s)).

Definition calculate_area : M float :=
  try_except
    (ensure_unified;;
     s ← get_self;
     gdf_metric ← call_to_crs (gdf s) "EPSG:31984";
     area ← (if len gdf_metric =? 1
             then g ← lift (first (geometry gdf_metric));
                  lift (attr "area" geom_area g)
             else unified_metric ← call_unary_union (geometry gdf_metric);
                  mret (geom_area unified_metric));
     mret (PyFloat.round area 2))
    (λ e,
     ensure_unified;;
     area_deg ← unified_attr "area" geom_area;
     let area_m2 := PyFloat.mul area_deg (PyFloat.of_Z (111320 ^ 2)) in
     mret (PyFloat.round area_m2 2)).

Definition calculate_perimeter : M float :=
  try_except
    (ensure_unified;;
     s ← get_self;
     gdf_metric ← call_to_crs (gdf s) "EPSG:31984";
     perimeter ← (if len gdf_metric =? 1
                  then g ← lift (first (geometry gdf_metric));
                       lift (attr "length" geom_length g)
                  else unified_metric ← call_unary_union (geometry gdf_metric);
                       mret (geom_length unified_metric));
     mret (PyFloat.round perimeter 2))
    (λ e,
     ensure_unified;;
     perimeter_deg ← unified_attr "length" geom_length;
     let perimeter_m := PyFloat.mul perimeter_deg (PyFloat.of_Z 111320) in
     mret (PyFloat.round perimeter_m 2)).

Definition zoning_columns : list string :=
  ["zona"; "zoneamento"; "zone"; "ZONA"; "ZONEAMENTO";
   "uso"; "uso_solo"; "tipo_zona"; "categoria"].

Definition param_columns : list string :=
  ["coeficiente"; "ca"; "coef_aproveitamento"; "taxa_ocupacao";
   "to"; "gabarito"; "altura_max"; "recuo"; "testada_min"].

Definition info_columns : list string :=
  ["matricula"; "inscricao"; "proprietario"; "endereco";
   "logradouro"; "numero"; "quadra"; "lote"].

(** [values[0] if len(values) == 1 else values] *)
Definition single_or_list (values : list Scalar) : PyVal :=
  match values with
  | [v] => One v
  | _ => Many values
  end.

(** [if values: zoning_info[col] = values[0] if len(values) == 1 else values] *)
Definition record_values (col : string) (values : list Scalar)
    (zoning_info : gmap string PyVal) : gmap string PyVal :=
  match values with
  | [] => zoning_info
  | _ => <[col := single_or_list values]> zoning_info
  end.

(** Body of the first loop of [extract_zoning_info]. *)
Definition zoning_step (g : GeoDataFrame) (zoning_info : gmap string PyVal)
    (col : string) : result (gmap string PyVal) :=
  if has_column g col then
    cells ← getitem g col;
    let values := unique (dropna cells) in
    Ok (record_values col values zoning_info)
  else Ok zoning_info.

(** Body of the second loop of [extract_zoning_info]. *)
Definition param_step (g : GeoDataFrame) (zoning_info : gmap string PyVal)
    (col : string) : result (gmap string PyVal) :=
  if has_column g col then
    cells ← getitem g col;
    let values := dropna cells in
    Ok (record_values col values zoning_info)
  else Ok zoning_info.

Definition status_unavailable : string :=
  "Informações de zoneamento não disponíveis nos dados".

Definition extract_zoning_info (s : TerrainAnalyzer) : gmap string PyVal :=
  let body :=
    zoning_info ← for_each (zoning_step (gdf s)) zoning_columns ∅;
    zoning_info ← for_each (param_step (gdf s)) param_columns zoning_info;
    Ok (if bool_decide (zoning_info = ∅)
        then <["status" := One (SStr status_unavailable)]> zoning_info
        else zoning_info) in
  match body with
  | Ok zoning_info => zoning_info
  | Raise e => {["error" := One (SStr e)]}
  end.

(** Body of the loop of [calculate_info]. *)
Definition info_step (g : GeoDataFrame) (additional_info : gmap string (list Scalar))
    (col : string) : result (gmap string (list Scalar)) :=
  if has_column g col then
    cells ← getitem g col;
    let values := unique (dropna cells) in
    Ok (match values with
        | [] => additional_info
        | _ => <[col := values]> additional_info
        end)
  else Ok additional_info.

(** The dictionary built on the success path of [calculate_info]. *)
Record InfoFields : Type := {
  total_lotes : nat;
  area_total_m2 : float;
  area_total_hectares : float;
  perimetro_m : float;
  zoneamento : gmap string PyVal;
  (** the mapping, or the text ['Não disponível'] when it is empty *)
  informacoes_adicionais : option (gmap string (list Scalar))
}.

(** What [calculate_info] returns: the full dictionary, or the dictionary
    [{'error': ..., 'total_lotes': ...}]. *)
Inductive Info : Type :=
  | InfoOk (fields : InfoFields)
  | InfoError (error : string) (total_lotes : nat).

Definition calculate_info : M Info :=
  try_except
    (area ← calculate_area;
     perimeter ← calculate_perimeter;
     s ← get_self;
     let zoning := extract_zoning_info s in
     additional_info ← lift (for_each (info_step (gdf s)) info_columns ∅);
     mret (InfoOk
       {| total_lotes := len (gdf s);
          area_total_m2 := area;
          area_total_hectares := PyFloat.round (PyFloat.div area (PyFloat.of_Z 10000)) 4;
          perimetro_m := perimeter;
          zoneamento := zoning;
          informacoes_adicionais :=
            if bool_decide (additional_info = ∅) then None
            else Some additional_info |}))
    (λ e, s ← get_self; mret (InfoError e (len (gdf s)))).

Definition get_centroid : M (option (float * float)) :=
  try_except
    (ensure_unified;;
     centroid ← unified_attr "centroid" geom_centroid;
     mret (Some centroid))
    (λ e, mret None).

Definition get_bounds : M (option (float * float * float * float)) :=
  try_except
    (ensure_unified;;
     b ← unified_attr "bounds" geom_bounds;
     mret (Some b))
    (λ e, mret None).

(** Run a method on a fresh analyzer. *)
Definition start (geodataframe : GeoDataFrame) : Run :=
  {| self := new_analyzer geodataframe; lib_calls := [] |}.

End Program.

(** ** app.py: the parcel store and the handlers that read it *)

Section App.
Context {L : GeoLib}.

(** The table [pd.read_parquet] returns: attribute columns and, when the
    file has one, the column of encoded geometries, whose cells are byte
    strings or null. *)
Record RawTable : Type := {
  raw_attrs : list (string * Column);
  raw_geometry : option (list (option (list Byte.byte)))
}.

(** The data file: absent, or present with what reading it gives. *)
Inductive DataFile : Type :=
  | FileMissing
  | FilePresent (read : result RawTable).

(** [shapely.from_wkb] on one cell of the column: a null gives [None]. *)
Definition from_wkb_cell (cell : option (list Byte.byte)) : result (option Geometry) :=
  match cell with
  | Some encoded => Some <$> from_wkb encoded
  | None => Ok None
  end.

Definition load_geojson (file : DataFile) : option GeoDataFrame :=
  match file with
  | FileMissing => None
  | FilePresent read =>
      let body :=
        raw ← read;
        wkb ← match raw_geometry raw with
              | Some w => Ok w
              | None => Raise "'geometry'"
              end;
        geo ← mapM from_wkb_cell wkb;
        let gdf := {| attrs := raw_attrs raw; geometry := geo;
                      crs := Some "EPSG:31984" |} in
        to_crs gdf "EPSG:4326" in
      match body with
      | Ok gdf => Some gdf
      | Raise _ => None
      end
  end.

(** The JSON document a handler answers with. *)
Inductive Payload : Type :=
  | Failure (error : string)
  | FailureColumns (error : string) (available_columns : list string)
  | Bairros (bairros : list Scalar) (total : nat)
  | Uniao (total_lotes_unidos : nat) (geometry : Geometry) (info : Info)
  | LoteInfo (info : Info).

(** The ['success'] field *)
Definition success (p : Payload) : bool :=
  match p with
  | Failure _ | FailureColumns _ _ => false
  | _ => true
  end.

Record Response : Type := {
  payload : Payload;
  status : nat
}.

(** A handler runs against the global [GEOJSON_DATA] ([None] until a load
    succeeds) and leaves the global behind. *)
Definition App (A : Type) : Type := option GeoDataFrame → A * option GeoDataFrame.

Definition failure (error : string) (code : nat) : Response :=
  {| payload := Failure error; status := code |}.

(** [except Exception as e: return jsonify(success=False, error=str(e)), 500] *)
Definition or_500 (body : result Response) : Response :=
  match body with
  | Ok r => r
  | Raise e => failure e 500
  end.

Definition bairro_candidates : list string :=
  ["bairro"; "BAIRRO"; "Bairro"; "nome"; "NOME"; "Nome"; "neighborhood"].

(** [for col in candidates: if col in data.columns: bairro_col = col; break] *)
Fixpoint resolve_column (candidates : list string) (data : GeoDataFrame)
  : option string :=
  match candidates with
  | [] => None
  | col :: rest =>
      if has_column data col then Some col else resolve_column rest data
  end.

Definition get_bairros : App Response := λ GEOJSON_DATA,
  (match GEOJSON_DATA with
   | None =>
       failure "Dados GeoJSON não carregados. Adicione terrenos.geojson na raiz do projeto." 500
   | Some data =>
       or_500
         (match resolve_column bairro_candidates data with
          | None =>
              Ok {| payload := FailureColumns "Coluna de bairro não encontrada no GeoJSON"
                                 (columns data);
                    status := 400 |}
          | Some bairro_col =>
              cells ← getitem data bairro_col;
              bairros ← sorted (unique (dropna cells));
              Ok {| payload := Bairros bairros (length bairros); status := 200 |}
          end)
   end, GEOJSON_DATA).

(** [shapely.geometry.mapping(ob)] reads [ob.__geo_interface__]; the GeoJSON
    mapping of a geometry is kept as the geometry. *)
Definition mapping (ob : option Geometry) : result Geometry :=
  attr "__geo_interface__" id ob.

(** A JSON value as the handlers look at it. *)
Inductive Json : Type :=
  | JNull
  | JBool (b : bool)
  | JInt (z : Z)
  | JStr (s : string)
  | JList (items : list Z).

(** What [request.get_json()] gives when it returns: a JSON object, or some
    other JSON value. *)
Inductive Body : Type :=
  | Object (fields : gmap string Json)
  | NotAnObject.

(** [bool(v)] *)
Definition truthy (v : Json) : bool :=
  match v with
  | JNull => false
  | JBool b => b
  | JInt z => negb (z =? 0)%Z
  | JStr s => negb (String.eqb s "")
  | JList items => negb (length items =? 0)
  end.

(** [len(v)] *)
Definition py_len (v : Json) : result nat :=
  match v with
  | JStr s => Ok (String.length s)
  | JList items => Ok (length items)
  | _ => Raise "object has no len()"
  end.

Definition unir_lotes (request_json : result Body) : App Response := λ GEOJSON_DATA,
  (match GEOJSON_DATA with
   | None => failure "Dados GeoJSON não carregados" 500
   | Some data =>
       or_500
         (body ← request_json;
          fields ← match body with
                   | Object fields => Ok fields
                   | NotAnObject => Raise "object has no attribute 'get'"
                   end;
          let indices := default (JList []) (fields !! "indices") in
          nothing ← (if negb (truthy indices) then Ok true
                     else n ← py_len indices; Ok (n =? 0));
          if nothing : bool then Ok (failure "Nenhum lote selecionado" 400)
          else
            positions ← match indices with
                        | JList items => Ok items
                        | _ => Raise "Cannot index by location index with a non-integer key"
                        end;
            selected_lots ← iloc data positions;
            let '(unified, analyzer) := unify_lots (start selected_lots) in
            unified_geom ← unified;
            let '(info, _) := calculate_info analyzer in
            info ← info;
            unified_geojson ← mapping unified_geom;
            (* the log line reads info['area_total_m2'] *)
            _ ← match info with
                | InfoOk fields => Ok (area_total_m2 fields)
                | InfoError _ _ => Raise "'area_total_m2'"
                end;
            n ← py_len indices;
            Ok {| payload := Uniao n unified_geojson info; status := 200 |})
   end, GEOJSON_DATA).

Definition get_lote_info (index : Z) : App Response := λ GEOJSON_DATA,
  (match GEOJSON_DATA with
   | None => failure "Dados GeoJSON não carregados" 500
   | Some data =>
       or_500
         (if bool_decide ((index < 0)%Z ∨ (index >= Z.of_nat (len data))%Z)
          then Ok (failure "Índice de lote inválido" 400)
          else
            lote ← iloc data [index];
            selected ← iloc data [index];
            let '(info, _) := calculate_info (start selected) in
            info ← info;
            Ok {| payload := LoteInfo info; status := 200 |})
   end, GEOJSON_DATA).

End App.

(** ** report.py: ZoningCalculator *)

(** [float(s)] on a string is the runtime's parser. *)
Class FloatParser : Type := float_of_str : string → option float.

Section Zoning.
Context {P : FloatParser}.

Record ZoningCalculator : Type := {
  area_terreno : float;
  params : gmap string PyVal
}.

(** [d.get(key, fallback)] *)
Definition dict_get {V} (d : gmap string V) (key : string) (fallback : V) : V :=
  default fallback (d !! key).

(** [if isinstance(x, (list, tuple)): x = x[0]] *)
Definition first_if_sequence (x : PyVal) : result PyVal :=
  match x with
  | Many vs => v ← first vs; Ok (One v)
  | One _ => Ok x
  end.

(** [float(x)] *)
Definition py_float (x : PyVal) : result float :=
  match x with
  | One (SFloat f) => Ok f
  | One (SInt z) =>
      let f := PyFloat.of_Z z in
      if PyFloat.is_inf f then Raise "int too large to convert to float" else Ok f
  | One (SStr s) =>
      match float_of_str s with
      | Some f => Ok f
      | None => Raise ("could not convert string to float: '" ++ s ++ "'")
      end
  | One SNone =>
      Raise "float() argument must be a string or a real number, not 'NoneType'"
  | Many _ =>
      Raise "float() argument must be a string or a real number, not 'list'"
  end.

(** [try: body except Exception: return None] *)
Definition or_None {A} (body : result A) : option A :=
  match body with
  | Ok a => Some a
  | Raise _ => None
  end.

Definition calculate_buildable_area (self : ZoningCalculator) : option float :=
  or_None
    (let ca := dict_get (params self) "coeficiente"
                 (dict_get (params self) "ca" (One (SFloat (PyFloat.lit 10 (-1))))) in
     ca ← first_if_sequence ca;
     ca ← py_float ca;
     let buildable := PyFloat.mul (area_terreno self) ca in
     Ok (PyFloat.round buildable 2)).

Definition calculate_footprint (self : ZoningCalculator) : option float :=
  or_None
    (let to := dict_get (params self) "taxa_ocupacao"
                 (dict_get (params self) "to" (One (SFloat (PyFloat.lit 5 (-1))))) in
     to ← first_if_sequence to;
     to ← py_float to;
     let footprint := PyFloat.mul (area_terreno self) to in
     Ok (PyFloat.round footprint 2)).

End Zoning.

(** ** A small geometry library to run the program on

    Geometries are finite sets of unit cells of an integer grid.  The
    geographic grid is the projected grid with its origin moved, so the two
    transformations are inverse to each other. *)

Module Grid.
Definition Cells : Type := gset (Z * Z).

Fixpoint decode (bytes : list Byte.byte) : result Cells :=
  match bytes with
  | [] => Ok ∅
  | x :: y :: rest =>
      g ← decode rest;
      Ok ({[ (Z.of_N (Byte.to_N x), Z.of_N (Byte.to_N y)) ]} ∪ g)
  | [_] => Raise "ParseException: Unexpected EOF parsing WKB"
  end.

Definition to_geographic (g : Cells) : Cells :=
  set_map (λ c : Z * Z, (c.1 - 40, c.2 - 20)%Z) g.

Definition to_projected (g : Cells) : Cells :=
  set_map (λ c : Z * Z, (c.1 + 40, c.2 + 20)%Z) g.

Definition reproject (src dst : string) : result (Cells → Cells) :=
  if bool_decide (src = dst) then Ok id
  else if bool_decide (src = "EPSG:31984" ∧ dst = "EPSG:4326") then Ok to_geographic
  else if bool_decide (src = "EPSG:4326" ∧ dst = "EPSG:31984") then Ok to_projected
  else Raise "CRSError: Invalid projection".

Definition open_sides (g : Cells) (c : Z * Z) : Z :=
  let side (d : Z * Z) := if bool_decide (d ∈ g) then 0%Z else 1%Z in
  (side (c.1 + 1, c.2) + side (c.1 - 1, c.2)
   + side (c.1, c.2 + 1) + side (c.1, c.2 - 1))%Z.

Definition total (f : Z * Z → Z) (g : Cells) : Z :=
  foldr (λ c acc, (f c + acc)%Z) 0%Z (elements g).

Definition mean (f : Z * Z → Z) (g : Cells) : float :=
  PyFloat.div (PyFloat.of_Z (total f g)) (PyFloat.of_Z (Z.of_nat (size g))).

Definition extreme (pick : Z → Z → Z) (f : Z * Z → Z) (g : Cells) : float :=
  match elements g with
  | [] => S754_nan
  | c :: cs => PyFloat.of_Z (foldr (λ c acc, pick (f c) acc) (f c) cs)
  end.

#[export] Instance lib : GeoLib := {|
  Geometry := Cells;
  from_wkb := decode;
  unary_union := λ gs, Ok (⋃ omap id gs);
  transformer := reproject;
  geom_area := λ g, PyFloat.of_Z (Z.of_nat (size g));
  geom_length := λ g, PyFloat.of_Z (total (open_sides g) g);
  geom_centroid := λ g, (mean fst g, mean snd g);
  geom_bounds := λ g, (extreme Z.min fst g, extreme Z.min snd g,
                       extreme Z.max fst g, extreme Z.max snd g)
|}.

(** A string-to-float parser that knows plain unsigned integers. *)
Fixpoint digits (s : string) (acc : Z) : option Z :=
  match s with
  | EmptyString => Some acc
  | String a rest =>
      let n := Ascii.nat_of_ascii a in
      if bool_decide (48 ≤ n ≤ 57) then digits rest (10 * acc + Z.of_nat (n - 48))%Z
      else None
  end.

#[export] Instance parser : FloatParser := λ s,
  match s with
  | EmptyString => None
  | _ => PyFloat.of_Z <$> digits s 0
  end.

(** Two parcels sharing no cell, with a zoning code and a coefficient. *)
Definition two_parcels : GeoDataFrame := {|
  attrs := [("BAIRRO", StrCol [Some "Centro"; Some "Centro"]);
            ("nome", StrCol [Some "Lote B"; Some "Lote A"]);
            ("zona", StrCol [Some "ZR1"; Some "ZR1"]);
            ("ca", FloatCol [PyFloat.of_Z 2; PyFloat.of_Z 2])];
  geometry := [Some {[ (0, 0)%Z ]}; Some {[ (1, 0)%Z ]}];
  crs := Some "EPSG:4326"
|}.

Definition one_parcel : GeoDataFrame := {|
  attrs := [("BAIRRO", StrCol [Some "Centro"])];
  geometry := [Some {[ (0, 0)%Z; (0, 1)%Z ]}];
  crs := Some "EPSG:4326"
|}.

(** A single parcel whose geometry is missing. *)
Definition unmapped_parcel : GeoDataFrame := {|
  attrs := [("BAIRRO", StrCol [Some "Centro"])];
  geometry := [None];
  crs := Some "EPSG:4326"
|}.

(** A parcel whose geometry is missing, before one that has a geometry. *)
Definition partly_mapped : GeoDataFrame := {|
  attrs := [("BAIRRO", StrCol [Some "Centro"; Some "Centro"])];
  geometry := [None; Some {[ (0, 0)%Z ]}];
  crs := Some "EPSG:4326"
|}.

(** The same parcels with no CRS attached: reprojection raises. *)
Definition naive_parcels : GeoDataFrame := {|
  attrs := attrs two_parcels;
  geometry := geometry two_parcels;
  crs := None
|}.



Definition small_store : GeoDataFrame := {|
  attrs := [("BAIRRO", StrCol [Some "Centro"])];
  geometry := [Some {[ (0, 0)%Z; (1, 0)%Z ]}];
  crs := Some "EPSG:4326"
|}.
End Grid.

(** ** Common shape of [calculate_area] and [calculate_perimeter]

    The two methods are the same text up to the attribute measured and the
    factor applied on the fallback path; [measure] is that text, and each
    method is an instance of it ([calculate_area_measure],
    [calculate_perimeter_measure]). *)

Section Measure.
Context {L : GeoLib}.

Definition measure (name : string) (attribute : Geometry → float) (factor : float)
  : M float :=
  try_except
    (ensure_unified;;
     s ← get_self;
     gdf_metric ← call_to_crs (gdf s) "EPSG:31984";
     x ← (if len gdf_metric =? 1
          then g ← lift (first (geometry gdf_metric));
               lift (attr name attribute g)
          else unified_metric ← call_unary_union (geometry gdf_metric);
               mret (attribute unified_metric));
     mret (PyFloat.round x 2))
    (λ e,
     ensure_unified;;
     x ← unified_attr name attribute;
     mret (PyFloat.round (PyFloat.mul x factor) 2)).

(** A computation never assigns [self.gdf]. *)
Definition keeps_gdf {A} (m : M A) : Prop :=
  ∀ r, gdf (self (m r).2) = gdf (self r).

End Measure.

(** ** Reading a stored parameter as a number

    What the two calculator methods do to the value they looked up: take
    the first element of a list, then convert with [float]. *)

Section AsNumber.
Context {P : FloatParser}.

Definition as_number (x : PyVal) : result float :=
  x' ← first_if_sequence x; py_float x'.

End AsNumber.

(** ** Order and kinds of cell values *)

(** [a] comes no later than [b]: [b < a] is false. *)
Definition py_le (a b : Scalar) : Prop := py_lt b a = Ok false.

(** The kind of the non-missing cells of a column. *)
Inductive Kind : Type := KStr | KInt | KFloat.

Definition of_kind (k : Kind) (v : Scalar) : Prop :=
  match k, v with
  | KStr, SStr _ => True
  | KInt, SInt _ => True
  | KFloat, SFloat f => PyFloat.is_nan f = false
  | _, _ => False
  end.

Definition column_kind (c : Column) : Kind :=
  match c with
  | StrCol _ => KStr
  | IntCol _ => KInt
  | FloatCol _ => KFloat
  end.

(** ** app.py: the parcels of a neighbourhood *)

Section Lotes.
Context {L : GeoLib}.

(** [cells[mask]]: the cells at the positions where the mask is true. *)
Fixpoint mask_rows {A} (mask : list bool) (cells : list A) : list A :=
  match mask, cells with
  | b :: mask', c :: cells' =>
      if b then c :: mask_rows mask' cells' else mask_rows mask' cells'
  | _, _ => []
  end.

Definition mask_column (mask : list bool) (c : Column) : Column :=
  match c with
  | StrCol cells => StrCol (mask_rows mask cells)
  | IntCol cells => IntCol (mask_rows mask cells)
  | FloatCol cells => FloatCol (mask_rows mask cells)
  end.

(** [data[mask]] for a boolean mask with one entry per row *)
Definition boolean_index (data : GeoDataFrame) (mask : list bool) : GeoDataFrame :=
  {| attrs := (λ nc : string * Column, (nc.1, mask_column mask nc.2)) <$> attrs data;
     geometry := mask_rows mask (geometry data);
     crs := crs data |}.

(** What [get_lotes_by_bairro] answers with; the parcels are kept as the
    table that the source serialises. *)
Inductive LotesPayload : Type :=
  | LotesFailure (error : string)
  | Lotes (bairro : string) (total_lotes : nat) (geojson : GeoDataFrame).

Record LotesResponse : Type := {
  lotes_payload : LotesPayload;
  lotes_status : nat
}.

Definition lotes_failure (error : string) (code : nat) : LotesResponse :=
  {| lotes_payload := LotesFailure error; lotes_status := code |}.

Definition get_lotes_by_bairro (bairro : string) : App LotesResponse := λ GEOJSON_DATA,
  (match GEOJSON_DATA with
   | None => lotes_failure "Dados GeoJSON não carregados" 500
   | Some data =>
       match
         match resolve_column bairro_candidates data with
         | None => Ok (lotes_failure "Coluna de bairro não encontrada" 400)
         | Some bairro_col =>
             cells ← getitem data bairro_col;
             let mask := (λ cell, py_eqb cell (SStr bairro)) <$> cells in
             let filtered := boolean_index data mask in
             if len filtered =? 0
             then Ok (lotes_failure ("Nenhum lote encontrado para o bairro " ++ bairro) 404)
             else Ok {| lotes_payload := Lotes bairro (len filtered) filtered;
                        lotes_status := 200 |}
         end
       with
       | Ok r => r
       | Raise e => lotes_failure e 500
       end
   end, GEOJSON_DATA).

End Lotes.

(** ** Vocabulary for the properties of tables and analyzers *)

Section Vocabulary.
Context {L : GeoLib}.

Definition column_length (c : Column) : nat :=
  match c with
  | StrCol cells => length cells
  | IntCol cells => length cells
  | FloatCol cells => length cells
  end.

(** Every attribute column has one cell per row. *)
Definition rectangular (data : GeoDataFrame) : Prop :=
  Forall (λ nc : string * Column, column_length nc.2 = len data) (attrs data).

(** The non-missing cells of a column of the table; none when the table has
    no such column. *)
Definition column_values (data : GeoDataFrame) (col : string) : list Scalar :=
  match assoc col (attrs data) with
  | Some c => dropna (tolist c)
  | None => []
  end.

(** What the loops of [extract_zoning_info] store for a list of values. *)
Definition recorded (values : list Scalar) : option PyVal :=
  match values with
  | [] => None
  | _ => Some (single_or_list values)
  end.

(** A computation never assigns a field of [self]. *)
Definition keeps_self {A} (m : M A) : Prop :=
  ∀ r, self (m r).2 = self r.

(** What the next call of [unify_lots] produces. *)
Definition union_of_stored (r : Run) : result (option Geometry) :=
  let geometries := geometry (gdf (self r)) in
  if length geometries =? 1 then first geometries
  else Some <$> unary_union geometries.

(** The library calls [calculate_area] and [calculate_perimeter] make after
    their first step: the reprojection and, when it goes through on a table
    of other than one row, the union of the reprojected geometries. *)
Definition metric_calls (g : GeoDataFrame) : list LibCall :=
  CallToCrs "EPSG:31984" ::
  match to_crs g "EPSG:31984" with
  | Ok gdf_metric =>
      if len gdf_metric =? 1 then [] else [CallUnaryUnion (geometry gdf_metric)]
  | Raise _ => []
  end.

End Vocabulary.

(** * Properties *)

(** ** The float model on known values *)

(** [1.0], [0.5] and [1000.0] as decimal literals are the integers and the
    half they denote. *)
Example lit_values :
  PyFloat.lit 10 (-1) = PyFloat.of_Z 1 ∧
  PyFloat.lit 5 (-1) = PyFloat.div (PyFloat.of_Z 1) (PyFloat.of_Z 2) ∧
  PyFloat.lit 10000 (-1) = PyFloat.lit 1000 0.
Proof. split_and!; vm_compute; reflexivity. Qed.

(** [round(2.675, 2) == 2.67] (the double below 2.675),
    [round(0.125, 2) == 0.12] and [round(0.375, 2) == 0.38] (exact ties go
    to the even digit), [round(1234.5678, 2) == 1234.57],
    [round(-0.001, 2) == -0.0]. *)
Example round_values :
  PyFloat.round (PyFloat.lit 2675 (-3)) 2 = PyFloat.lit 267 (-2) ∧
  PyFloat.round (PyFloat.lit 125 (-3)) 2 = PyFloat.lit 12 (-2) ∧
  PyFloat.round (PyFloat.lit 375 (-3)) 2 = PyFloat.lit 38 (-2) ∧
  PyFloat.round (PyFloat.lit 12345678 (-4)) 2 = PyFloat.lit 123457 (-2) ∧
  PyFloat.round (SFopp (PyFloat.lit 1 (-3))) 2 = S754_zero true.
Proof. split_and!; vm_compute; reflexivity. Qed.

(** [111320 ** 2] is exact as a float. *)
Example scale_factor_exact :
  PyFloat.compare_Z (PyFloat.of_Z (111320 * 111320)) 12392142400 = Some Eq.
Proof. vm_compute. reflexivity. Qed.

(** Unfolds the plumbing of the analyzer monad. *)
Ltac run_M :=
  unfold try_except, ensure_unified, unified_attr, call_unary_union,
    call_to_crs, logged, lift, raise, get_self, set_unified_geometry,
    mbind, M_mbind, M_bind, mret, M_mret, M_ret,
    result_mbind, result_bind, result_mret in *;
  cbn [self lib_calls gdf unified_geometry fst snd] in *.

Section UnifyFacts.
Context {L : GeoLib}.

(** What one call of [unify_lots] does, in terms of the library result. *)
Lemma unify_lots_eq (r : Run) :
  unify_lots r =
    let geometries := geometry (gdf (self r)) in
    let single := length geometries =? 1 in
    let calls := if single then lib_calls r
                 else lib_calls r ++ [CallUnaryUnion geometries] in
    match (if single then first geometries else Some <$> unary_union geometries) with
    | Ok u => (Ok u, {| self := {| gdf := gdf (self r); unified_geometry := u |};
                        lib_calls := calls |})
    | Raise e => (Raise e, {| self := self r; lib_calls := calls |})
    end.
Proof.
  unfold unify_lots. run_M.
  destruct r as [s calls]; cbn.
  destruct (length (geometry (gdf s)) =? 1).
  - destruct (first (geometry (gdf s))); reflexivity.
  - destruct (unary_union (geometry (gdf s))); reflexivity.
Qed.

Lemma unify_lots_gdf (r : Run) : gdf (self (unify_lots r).2) = gdf (self r).
Proof.
  rewrite unify_lots_eq. cbv zeta.
  destruct (if length _ =? 1 then _ else _); reflexivity.
Qed.

Lemma unify_lots_ok (r r1 : Run) (g : option Geometry) :
  unify_lots r = (Ok g, r1) →
  unified_geometry (self r1) = g ∧ gdf (self r1) = gdf (self r).
Proof.
  rewrite unify_lots_eq. cbv zeta.
  destruct (if length _ =? 1 then _ else _); intros [= <- <-]; done.
Qed.

(** A second call: same result, same object, and the union asked again. *)
Lemma unify_lots_again (r r1 : Run) (g : option Geometry) :
  unify_lots r = (Ok g, r1) →
  ∃ r2, unify_lots r1 = (Ok g, r2) ∧
        self r2 = self r1 ∧
        lib_calls r2 =
          lib_calls r1 ++
            (if length (geometry (gdf (self r1))) =? 1 then []
             else [CallUnaryUnion (geometry (gdf (self r1)))]).
Proof.
  intros H. pose proof (unify_lots_ok _ _ _ H) as [Hu Hg].
  rewrite unify_lots_eq in H. cbv zeta in H.
  rewrite (unify_lots_eq r1). cbv zeta. rewrite Hg.
  destruct (length (geometry (gdf (self r))) =? 1);
    match type of H with
    | context [match ?x with _ => _ end] => destruct x; [|discriminate]
    end; injection H as <- <-; cbn;
    (eexists; split; [reflexivity|]); cbn; split; try reflexivity.
  symmetry. apply app_nil_r.
Qed.

End UnifyFacts.

(** C1. For a selection of exactly one parcel [unify_lots] returns that
    parcel's geometry itself; for a selection of two or more parcels it
    returns what the library's union of all selected geometries returns,
    and, the library's union being the set-theoretic union of point sets,
    the points of the result are exactly the points of the selected
    geometries. *)
Theorem unify_lots_single_or_union
    (L : GeoLib) (Point : Type) (pts : Geometry → Point → Prop)
    (union_spec : ∀ gs u, unary_union gs = Ok u →
                  ∀ p, pts u p ↔ ∃ g, Some g ∈ gs ∧ pts g p)
    (r : Run) :
  (∀ g, geometry (gdf (self r)) = [g] → (unify_lots r).1 = Ok g) ∧
  (2 ≤ length (geometry (gdf (self r))) →
     (unify_lots r).1 = Some <$> unary_union (geometry (gdf (self r))) ∧
     ∀ u, (unify_lots r).1 = Ok (Some u) →
          ∀ p, pts u p ↔ ∃ g, Some g ∈ geometry (gdf (self r)) ∧ pts g p).
Proof.
  split.
  - intros g Hg. rewrite unify_lots_eq, Hg. reflexivity.
  - intros Hlen.
    assert (Hres : (unify_lots r).1
                   = Some <$> unary_union (geometry (gdf (self r)))).
    { rewrite unify_lots_eq. cbv zeta.
      destruct (geometry (gdf (self r))) as [|a [|b l]]; cbn in Hlen; try lia.
      cbn [length Nat.eqb].
      destruct (unary_union (a :: b :: l)); reflexivity. }
    split; [exact Hres|].
    intros u Hu. apply union_spec. rewrite Hres in Hu.
    destruct (unary_union (geometry (gdf (self r)))); cbn in Hu; congruence.
Qed.

Lemma unify_lots_single_or_union_witness :
  (unify_lots (start Grid.one_parcel)).1 = first (geometry Grid.one_parcel) ∧
  (unify_lots (start Grid.two_parcels)).1
    = Some <$> unary_union (geometry Grid.two_parcels) ∧
  ∀ u, (unify_lots (start Grid.two_parcels)).1 = Ok (Some u) →
       ∀ p : Z * Z, p ∈ u ↔ ∃ g, Some g ∈ geometry Grid.two_parcels ∧ p ∈ g.
Proof.
  assert (union_spec : ∀ (gs : list (option (@Geometry Grid.lib))) u,
            @unary_union Grid.lib gs = Ok u →
            ∀ p : Z * Z, p ∈ u ↔ ∃ g, Some g ∈ gs ∧ p ∈ g).
  { intros gs u Hu p. cbn in Hu. injection Hu as <-.
    rewrite elem_of_union_list. split.
    - intros (g & Hg & Hp). apply list_elem_of_omap in Hg as (x & Hx & Hxg).
      cbn in Hxg. subst x. eauto.
    - intros (g & Hg & Hp). exists g. split; [|done].
      apply list_elem_of_omap. eauto. }
  destruct (unify_lots_single_or_union Grid.lib (Z * Z) (λ g p, p ∈ g) union_spec
              (start Grid.one_parcel)) as [Hone _].
  destruct (unify_lots_single_or_union Grid.lib (Z * Z) (λ g p, p ∈ g) union_spec
              (start Grid.two_parcels)) as [_ Htwo].
  split.
  - apply Hone. reflexivity.
  - apply Htwo. cbn. lia.
Defined.

(** C7, as stated, fails: on a selection of two parcels the second call of
    [unify_lots] returns the same geometry but computes the union once
    more. *)
Lemma unify_lots_recomputes :
  let first_call := unify_lots (start Grid.two_parcels) in
  let second_call := unify_lots first_call.2 in
  second_call.1 = first_call.1 ∧
  lib_calls first_call.2 = [CallUnaryUnion (geometry Grid.two_parcels)] ∧
  lib_calls second_call.2 = [CallUnaryUnion (geometry Grid.two_parcels);
                             CallUnaryUnion (geometry Grid.two_parcels)] ∧
  lib_calls second_call.2 ≠ lib_calls first_call.2.
Proof.
  cbv zeta. repeat split; try reflexivity.
  rewrite !unify_lots_eq. cbn. discriminate.
Qed.

Section AnalyzerFacts.
Context {L : GeoLib}.

Lemma calculate_area_measure :
  calculate_area = measure "area" geom_area (PyFloat.of_Z (111320 * 111320)).
Proof. reflexivity. Qed.

Lemma calculate_perimeter_measure :
  calculate_perimeter = measure "length" geom_length (PyFloat.of_Z 111320).
Proof. reflexivity. Qed.

Lemma keeps_gdf_ret {A} (a : A) : keeps_gdf (mret a).
Proof. intros r. reflexivity. Qed.

Lemma keeps_gdf_raise {A} (e : string) : keeps_gdf (raise (A := A) e).
Proof. intros r. reflexivity. Qed.

Lemma keeps_gdf_lift {A} (m : result A) : keeps_gdf (lift m).
Proof. intros r. reflexivity. Qed.

Lemma keeps_gdf_logged {A} (c : LibCall) (m : result A) : keeps_gdf (logged c m).
Proof. intros r. reflexivity. Qed.

Lemma keeps_gdf_get_self : keeps_gdf get_self.
Proof. intros r. reflexivity. Qed.

Lemma keeps_gdf_bind {A B} (m : M A) (k : A → M B) :
  keeps_gdf m → (∀ a, keeps_gdf (k a)) → keeps_gdf (m ≫= k).
Proof.
  intros Hm Hk r. unfold mbind, M_mbind, M_bind.
  specialize (Hm r). destruct (m r) as [[a|e] r1]; cbn in *.
  - rewrite Hk. exact Hm.
  - exact Hm.
Qed.

Lemma keeps_gdf_try {A} (body : M A) (handler : string → M A) :
  keeps_gdf body → (∀ e, keeps_gdf (handler e)) → keeps_gdf (try_except body handler).
Proof.
  intros Hm Hk r. unfold try_except.
  specialize (Hm r). destruct (body r) as [[a|e] r1]; cbn in *.
  - exact Hm.
  - rewrite Hk. exact Hm.
Qed.

Lemma keeps_gdf_unify_lots : keeps_gdf unify_lots.
Proof. intros r. apply unify_lots_gdf. Qed.

Lemma keeps_gdf_ensure_unified : keeps_gdf ensure_unified.
Proof.
  unfold ensure_unified. apply keeps_gdf_bind; [apply keeps_gdf_get_self|].
  intros s. destruct (unified_geometry s).
  - apply keeps_gdf_ret.
  - apply keeps_gdf_bind; [apply keeps_gdf_unify_lots|].
    intros _. apply keeps_gdf_ret.
Qed.

Lemma keeps_gdf_unified_attr {A} (name : string) (attribute : Geometry → A) :
  keeps_gdf (unified_attr name attribute).
Proof.
  unfold unified_attr. apply keeps_gdf_bind; [apply keeps_gdf_get_self|].
  intros s. apply keeps_gdf_lift.
Qed.

Lemma keeps_gdf_measure name attribute factor :
  keeps_gdf (measure name attribute factor).
Proof.
  unfold measure. apply keeps_gdf_try.
  - apply keeps_gdf_bind; [apply keeps_gdf_ensure_unified|]. intros _.
    apply keeps_gdf_bind; [apply keeps_gdf_get_self|]. intros s.
    apply keeps_gdf_bind; [apply keeps_gdf_logged|]. intros gdf_metric.
    apply keeps_gdf_bind; [|intros x; apply keeps_gdf_ret].
    destruct (len gdf_metric =? 1).
    + apply keeps_gdf_bind; [apply keeps_gdf_lift|].
      intros g. apply keeps_gdf_lift.
    + apply keeps_gdf_bind; [apply keeps_gdf_logged|].
      intros g. apply keeps_gdf_ret.
  - intros e.
    apply keeps_gdf_bind; [apply keeps_gdf_ensure_unified|]. intros _.
    apply keeps_gdf_bind; [apply keeps_gdf_unified_attr|]. intros x.
    apply keeps_gdf_ret.
Qed.

Lemma ensure_unified_cached (r : Run) (g : Geometry) :
  unified_geometry (self r) = Some g → ensure_unified r = (Ok tt, r).
Proof. intros Hu. unfold ensure_unified. run_M. rewrite Hu. reflexivity. Qed.

Lemma ensure_unified_uncached (r : Run) :
  unified_geometry (self r) = None →
  ensure_unified r = match unify_lots r with
                     | (Ok _, r1) => (Ok tt, r1)
                     | (Raise e, r1) => (Raise e, r1)
                     end.
Proof.
  intros Hu. unfold ensure_unified. run_M. rewrite Hu.
  destruct (unify_lots r) as [[u|e] r1]; reflexivity.
Qed.

(** After the guard a geometry is stored, unless the selection is a single
    parcel without geometry. *)
Lemma ensure_unified_ok (r r1 : Run) :
  ensure_unified r = (Ok tt, r1) →
  geometry (gdf (self r)) ≠ [None] →
  ∃ g, unified_geometry (self r1) = Some g.
Proof.
  intros Hen Hne.
  destruct (unified_geometry (self r)) as [g|] eqn:Hu.
  - rewrite (ensure_unified_cached r g Hu) in Hen. injection Hen as <-. eauto.
  - rewrite (ensure_unified_uncached r Hu), unify_lots_eq in Hen. cbv zeta in Hen.
    destruct (geometry (gdf (self r))) as [|a [|b l]]; cbn in Hen.
    + destruct (unary_union []); cbn in Hen; [|discriminate].
      injection Hen as <-. cbn. eauto.
    + destruct a as [a|]; [|done]. injection Hen as <-. cbn. eauto.
    + destruct (unary_union (a :: b :: l)); cbn in Hen; [|discriminate].
      injection Hen as <-. cbn. eauto.
Qed.

Lemma union_of_stored_self (r r' : Run) :
  self r' = self r → union_of_stored r' = union_of_stored r.
Proof. unfold union_of_stored. by intros ->. Qed.

Lemma union_of_stored_Raise (r : Run) (e : string) :
  union_of_stored r = Raise e ↔
  length (geometry (gdf (self r))) ≠ 1 ∧ unary_union (geometry (gdf (self r))) = Raise e.
Proof.
  unfold union_of_stored. cbv zeta.
  destruct (geometry (gdf (self r))) as [|a [|b l]]; cbn [length Nat.eqb first];
    try destruct (unary_union _); cbn;
    (split; [intros H|intros [H1 H2]]); simplify_eq; try done;
    split; (lia || done).
Qed.

Lemma union_of_stored_None (r : Run) :
  union_of_stored r = Ok None ↔ geometry (gdf (self r)) = [None].
Proof.
  unfold union_of_stored. cbv zeta.
  destruct (geometry (gdf (self r))) as [|a [|b l]]; cbn [length Nat.eqb first];
    try destruct (unary_union _); cbn; split; intros H; by simplify_eq.
Qed.

Lemma unify_lots_union_of_stored (r : Run) :
  unify_lots r =
    match union_of_stored r with
    | Ok u => (Ok u, {| self := {| gdf := gdf (self r); unified_geometry := u |};
                        lib_calls := (unify_lots r).2.(lib_calls) |})
    | Raise e => (Raise e, {| self := self r; lib_calls := (unify_lots r).2.(lib_calls) |})
    end.
Proof.
  unfold union_of_stored. rewrite unify_lots_eq at 1. rewrite unify_lots_eq. cbv zeta.
  destruct (length _ =? 1); [destruct (first _)|destruct (unary_union _)]; reflexivity.
Qed.

(** With a geometry stored [measure] returns a value, leaves the object as
    it was and calls the library for the reprojection and the union of the
    reprojected geometries only. *)
Lemma measure_cached name attribute factor (r : Run) (g : Geometry) :
  unified_geometry (self r) = Some g →
  ∃ x, measure name attribute factor r
       = (Ok x, {| self := self r;
                   lib_calls := lib_calls r ++ metric_calls (gdf (self r)) |}).
Proof.
  intros Hu. unfold measure, try_except, metric_calls.
  unfold mbind at 1, M_mbind at 1, M_bind at 1.
  rewrite (ensure_unified_cached r g Hu). run_M.
  destruct (to_crs (gdf (self r)) "EPSG:31984") as [gm|e1]; cbn.
  - destruct (len gm =? 1).
    + destruct (first (geometry gm)) as [[g'|]|]; cbn;
        repeat (rewrite Hu; cbn); eexists; reflexivity.
    + destruct (unary_union (geometry gm)); cbn;
        repeat (rewrite Hu; cbn); rewrite <- app_assoc; eexists; reflexivity.
  - repeat (rewrite Hu; cbn). eexists; reflexivity.
Qed.

Lemma measure_uncached_ok name attribute factor (r : Run) (u : Geometry) :
  unified_geometry (self r) = None → union_of_stored r = Ok (Some u) →
  ∃ x r', measure name attribute factor r = (Ok x, r') ∧
          self r' = {| gdf := gdf (self r); unified_geometry := Some u |}.
Proof.
  intros Hn Hu.
  pose proof (unify_lots_union_of_stored r) as Hun. rewrite Hu in Hun.
  set (r1 := {| self := {| gdf := gdf (self r); unified_geometry := Some u |};
                lib_calls := lib_calls (unify_lots r).2 |}) in *.
  assert (Hen : ensure_unified r = (Ok tt, r1)).
  { rewrite (ensure_unified_uncached r Hn), Hun. reflexivity. }
  assert (Hc1 : unified_geometry (self r1) = Some u) by reflexivity.
  unfold measure, try_except.
  unfold mbind at 1, M_mbind at 1, M_bind at 1. rewrite Hen.
  subst r1. run_M.
  destruct (to_crs (gdf (self r)) "EPSG:31984") as [gm|e1]; cbn.
  - destruct (len gm =? 1).
    + destruct (first (geometry gm)) as [[g'|]|]; cbn; eauto.
    + destruct (unary_union (geometry gm)); cbn; eauto.
  - eauto.
Qed.

Lemma measure_uncached_raise name attribute factor (r : Run) (e : string) :
  unified_geometry (self r) = None → union_of_stored r = Raise e →
  ∃ r', measure name attribute factor r = (Raise e, r') ∧ self r' = self r.
Proof.
  intros Hn Hu.
  pose proof (unify_lots_union_of_stored r) as Hun. rewrite Hu in Hun.
  set (r1 := {| self := self r; lib_calls := lib_calls (unify_lots r).2 |}) in *.
  assert (Hen : ensure_unified r = (Raise e, r1)).
  { rewrite (ensure_unified_uncached r Hn), Hun. reflexivity. }
  pose proof (unify_lots_union_of_stored r1) as Hun1.
  rewrite (union_of_stored_self r r1 eq_refl), Hu in Hun1.
  unfold measure, try_except.
  unfold mbind at 1, M_mbind at 1, M_bind at 1. rewrite Hen.
  unfold mbind at 1, M_mbind at 1, M_bind at 1.
  assert (Hen1 : ensure_unified r1 = (Raise e, (unify_lots r1).2)).
  { rewrite (ensure_unified_uncached r1 Hn). rewrite Hun1 at 1.
    rewrite Hun1. reflexivity. }
  rewrite Hen1. eexists. split; [reflexivity|]. rewrite Hun1. reflexivity.
Qed.

(** A single parcel without geometry: whatever the reprojection does, the
    attribute is read on [None], on the metric path and again on the
    fallback path. *)
Lemma measure_uncached_none name attribute factor (r : Run) :
  unified_geometry (self r) = None → geometry (gdf (self r)) = [None] →
  ∃ r', measure name attribute factor r = (Raise (no_attribute name), r') ∧
        self r' = self r.
Proof.
  intros Hn Hg.
  assert (Hself : {| gdf := gdf (self r); unified_geometry := None |} = self r).
  { destruct (self r) as [d u]. cbn in *. by subst u. }
  assert (Hun : ∀ calls, unify_lots {| self := self r; lib_calls := calls |}
                         = (Ok None, {| self := self r; lib_calls := calls |})).
  { intros calls. rewrite unify_lots_eq. cbn. rewrite Hg. cbn. by rewrite Hself. }
  assert (Hen : ∀ calls, ensure_unified {| self := self r; lib_calls := calls |}
                         = (Ok tt, {| self := self r; lib_calls := calls |})).
  { intros calls. rewrite ensure_unified_uncached by exact Hn. by rewrite Hun. }
  destruct r as [s calls]. cbn in *.
  unfold measure, try_except.
  unfold mbind at 1, M_mbind at 1, M_bind at 1. rewrite Hen.
  match goal with
  | |- context [ensure_unified ≫= ?k] => set (fallback := ensure_unified ≫= k)
  end.
  assert (Hfallback : ∀ calls',
    fallback {| self := s; lib_calls := calls' |}
    = (Raise (no_attribute name), {| self := s; lib_calls := calls' |})).
  { intros calls'. unfold fallback.
    unfold mbind at 1, M_mbind at 1, M_bind at 1. rewrite Hen.
    unfold unified_attr. run_M. rewrite Hn. reflexivity. }
  clearbody fallback. run_M.
  unfold to_crs. destruct (crs (gdf s)) as [src|]; cbn.
  2: { rewrite Hfallback. eauto. }
  destruct (transformer src "EPSG:31984") as [f|e1]; cbn.
  2: { rewrite Hfallback. eauto. }
  unfold len. cbn. rewrite Hg. cbn.
  rewrite Hfallback. eauto.
Qed.

Lemma measure_raise_iff name attribute factor (r : Run) (e : string) :
  (measure name attribute factor r).1 = Raise e ↔
  unified_geometry (self r) = None ∧
  (union_of_stored r = Raise e ∨
   (geometry (gdf (self r)) = [None] ∧ e = no_attribute name)).
Proof.
  destruct (unified_geometry (self r)) as [g|] eqn:Hu.
  - destruct (measure_cached name attribute factor r g Hu) as (x & ->).
    cbn. split; [done|]. by intros [? _].
  - destruct (union_of_stored r) as [[u|]|e'] eqn:Hs.
    + destruct (measure_uncached_ok name attribute factor r u Hu Hs) as (x & r' & -> & _).
      cbn. split; [done|]. intros [_ [?|[Hg _]]]; [done|].
      apply union_of_stored_None in Hg. congruence.
    + pose proof (proj1 (union_of_stored_None r) Hs) as Hg.
      destruct (measure_uncached_none name attribute factor r Hu Hg) as (r' & -> & _).
      cbn. split.
      * intros [= <-]. auto.
      * intros [_ [?|[_ ->]]]; done.
    + destruct (measure_uncached_raise name attribute factor r e' Hu Hs) as (r' & -> & _).
      cbn. split.
      * intros [= ->]. auto.
      * intros [_ [[= ->]|[Hg _]]]; [done|].
        apply union_of_stored_None in Hg. congruence.
Qed.

(** After [measure] returned a value the object holds a unified geometry. *)
Lemma measure_ok_stored name attribute factor (r r' : Run) (x : float) :
  measure name attribute factor r = (Ok x, r') →
  ∃ g, unified_geometry (self r') = Some g ∧ gdf (self r') = gdf (self r).
Proof.
  intros H.
  destruct (unified_geometry (self r)) as [g|] eqn:Hu.
  - destruct (measure_cached name attribute factor r g Hu) as (x' & H').
    rewrite H in H'. injection H' as <- ->. exists g. done.
  - destruct (union_of_stored r) as [[u|]|e'] eqn:Hs.
    + destruct (measure_uncached_ok name attribute factor r u Hu Hs)
        as (x' & r'' & H' & Hs').
      rewrite H in H'. injection H' as <- <-. exists u. by rewrite Hs'.
    + pose proof (proj1 (union_of_stored_None r) Hs) as Hg.
      destruct (measure_uncached_none name attribute factor r Hu Hg) as (r'' & H' & _).
      rewrite H in H'. discriminate.
    + destruct (measure_uncached_raise name attribute factor r e' Hu Hs) as (r'' & H' & _).
      rewrite H in H'. discriminate.
Qed.

(** The fallback path of [measure]: when the first step went through and
    left the geometry [g] stored, and the reprojection raises, the result is
    computed from [g]. *)
Lemma measure_fallback name attribute factor (r r1 : Run) (g : Geometry) (e : string) :
  ensure_unified r = (Ok tt, r1) →
  unified_geometry (self r1) = Some g →
  to_crs (gdf (self r)) "EPSG:31984" = Raise e →
  (measure name attribute factor r).1
    = Ok (PyFloat.round (PyFloat.mul (attribute g) factor) 2).
Proof.
  intros Hen Hg Hcrs.
  pose proof (keeps_gdf_ensure_unified r) as Hk. rewrite Hen in Hk. cbn in Hk.
  unfold measure, try_except.
  unfold mbind at 1, M_mbind at 1, M_bind at 1. rewrite Hen.
  unfold mbind at 1, M_mbind at 1, M_bind at 1, get_self at 1.
  unfold mbind at 1, M_mbind at 1, M_bind at 1, call_to_crs, logged.
  cbn [self]. rewrite Hk, Hcrs.
  set (r2 := {| self := self r1; lib_calls := _ |}).
  assert (Hg2 : unified_geometry (self r2) = Some g) by exact Hg.
  unfold mbind at 1, M_mbind at 1, M_bind at 1.
  rewrite (ensure_unified_cached r2 g Hg2).
  unfold unified_attr. run_M. rewrite Hg2. reflexivity.
Qed.

(** Once the guard has gone through, going through it again leaves the
    object as it is. *)
Lemma ensure_unified_twice (r r1 : Run) :
  ensure_unified r = (Ok tt, r1) →
  ∀ calls, ∃ calls',
    ensure_unified {| self := self r1; lib_calls := calls |}
      = (Ok tt, {| self := self r1; lib_calls := calls' |}).
Proof.
  intros Hen calls.
  destruct (unified_geometry (self r1)) as [g|] eqn:Hg1.
  { exists calls. by apply (ensure_unified_cached _ g). }
  destruct (unified_geometry (self r)) as [g|] eqn:Hu.
  { rewrite (ensure_unified_cached r g Hu) in Hen. injection Hen as <-. congruence. }
  rewrite (ensure_unified_uncached r Hu) in Hen.
  destruct (unify_lots r) as [[u|e] r'] eqn:Hun; [|discriminate].
  injection Hen as ->.
  pose proof (unify_lots_ok _ _ _ Hun) as [Hu1 Hgdf].
  rewrite Hg1 in Hu1. subst u.
  rewrite (unify_lots_union_of_stored r) in Hun.
  destruct (union_of_stored r) as [[u|]|e] eqn:Hs; try discriminate.
  apply union_of_stored_None in Hs.
  rewrite ensure_unified_uncached by exact Hg1.
  rewrite unify_lots_eq. cbn. rewrite Hgdf, Hs. cbn.
  eexists. f_equal. f_equal.
  destruct (self r1) as [d u]. cbn in *. by subst.
Qed.

(** [measure] when the reprojection goes through. *)
Lemma measure_metric name attribute factor (r r1 : Run) (src : string)
    (f : Geometry → Geometry) :
  ensure_unified r = (Ok tt, r1) →
  crs (gdf (self r)) = Some src →
  transformer src "EPSG:31984" = Ok f →
  (measure name attribute factor r).1 =
    let metric := fmap (M := option) f <$> geometry (gdf (self r)) in
    match (if length (geometry (gdf (self r))) =? 1
           then first metric ≫= attr name attribute
           else fmap (M := result) attribute (unary_union metric)) with
    | Ok x => Ok (PyFloat.round x 2)
    | Raise _ =>
        match attr name attribute (unified_geometry (self r1)) with
        | Ok x => Ok (PyFloat.round (PyFloat.mul x factor) 2)
        | Raise e => Raise e
        end
    end.
Proof.
  intros Hen Hcrs Hf.
  pose proof (keeps_gdf_ensure_unified r) as Hk. rewrite Hen in Hk. cbn in Hk.
  assert (Hfallback : ∀ calls,
    ((ensure_unified;; x ← unified_attr name attribute;
      mret (PyFloat.round (PyFloat.mul x factor) 2))
       {| self := self r1; lib_calls := calls |}).1
    = match attr name attribute (unified_geometry (self r1)) with
      | Ok x => Ok (PyFloat.round (PyFloat.mul x factor) 2)
      | Raise e => Raise e
      end).
  { intros calls. destruct (ensure_unified_twice r r1 Hen calls) as [calls' Htwice].
    unfold mbind at 1, M_mbind at 1, M_bind at 1. rewrite Htwice.
    unfold unified_attr. run_M.
    destruct (attr name attribute (unified_geometry (self r1))); reflexivity. }
  unfold measure, try_except.
  unfold mbind at 1, M_mbind at 1, M_bind at 1. rewrite Hen.
  unfold mbind at 1, M_mbind at 1, M_bind at 1, get_self at 1.
  unfold mbind at 1, M_mbind at 1, M_bind at 1, call_to_crs at 1, logged at 1.
  cbn [self]. rewrite Hk. unfold to_crs. rewrite Hcrs. cbn. rewrite Hf. cbn.
  unfold len. cbn [geometry]. rewrite length_fmap.
  match goal with
  | |- context [ensure_unified ≫= ?k] => set (fallback := ensure_unified ≫= k) in *
  end.
  clearbody fallback. run_M.
  destruct (length (geometry (gdf (self r))) =? 1).
  - destruct (first (fmap f <$> geometry (gdf (self r)))) as [g|e1]; cbn.
    + destruct (attr name attribute g); cbn; [reflexivity|apply Hfallback].
    + apply Hfallback.
  - destruct (unary_union (fmap f <$> geometry (gdf (self r)))); cbn;
      [reflexivity|apply Hfallback].
Qed.

End AnalyzerFacts.
Section CentroidFacts.
Context {L : GeoLib}.

Lemma get_centroid_cases (r : Run) :
  (∀ g, unified_geometry (self r) = Some g →
        get_centroid r = (Ok (Some (geom_centroid g)), r)) ∧
  (unified_geometry (self r) = None →
   (get_centroid r).1 = Ok match (unify_lots r).1 with
                           | Ok (Some u) => Some (geom_centroid u)
                           | _ => None
                           end).
Proof.
  split.
  - intros g Hg. unfold get_centroid, try_except.
    unfold mbind at 1, M_mbind at 1, M_bind at 1.
    rewrite (ensure_unified_cached r g Hg). run_M. rewrite Hg. reflexivity.
  - intros Hn. unfold get_centroid, try_except.
    unfold mbind at 1, M_mbind at 1, M_bind at 1.
    rewrite (ensure_unified_uncached r Hn), unify_lots_eq. cbv zeta.
    destruct (if length _ =? 1 then _ else _) as [[u|]|e]; reflexivity.
Qed.

Lemma get_bounds_cases (r : Run) :
  (∀ g, unified_geometry (self r) = Some g →
        get_bounds r = (Ok (Some (geom_bounds g)), r)) ∧
  (unified_geometry (self r) = None →
   (get_bounds r).1 = Ok match (unify_lots r).1 with
                         | Ok (Some u) => Some (geom_bounds u)
                         | _ => None
                         end).
Proof.
  split.
  - intros g Hg. unfold get_bounds, try_except.
    unfold mbind at 1, M_mbind at 1, M_bind at 1.
    rewrite (ensure_unified_cached r g Hg). run_M. rewrite Hg. reflexivity.
  - intros Hn. unfold get_bounds, try_except.
    unfold mbind at 1, M_mbind at 1, M_bind at 1.
    rewrite (ensure_unified_uncached r Hn), unify_lots_eq. cbv zeta.
    destruct (if length _ =? 1 then _ else _) as [[u|]|e]; reflexivity.
Qed.

End CentroidFacts.

(** C7 (as amended). A second call of [unify_lots] returns the same value
    as the first and leaves the object as it was, but it does not consult
    the stored geometry: unless the selection has exactly one parcel it asks
    the library for the union again.  The stored geometry is consulted by
    the callers.  Once [unify_lots] has stored a geometry [u], the guard
    [if self.unified_geometry is None] of the centroid, bounds, area and
    perimeter methods skips [unify_lots]: the centroid and the bounds are
    read from [u] without any call to the library, and the area and the
    perimeter leave the object as it was and call the library for the
    reprojection and the union of the reprojected geometries only. *)
Theorem unify_lots_second_call (L : GeoLib) (r r1 : Run) (g : option Geometry) :
  unify_lots r = (Ok g, r1) →
  unified_geometry (self r1) = g ∧
  (∃ r2, unify_lots r1 = (Ok g, r2) ∧
         self r2 = self r1 ∧
         lib_calls r2 =
           lib_calls r1 ++
             (if length (geometry (gdf (self r1))) =? 1 then []
              else [CallUnaryUnion (geometry (gdf (self r1)))])) ∧
  (∀ u, g = Some u →
     let after := {| self := self r1;
                     lib_calls := lib_calls r1 ++ metric_calls (gdf (self r1)) |} in
     ensure_unified r1 = (Ok tt, r1) ∧
     get_centroid r1 = (Ok (Some (geom_centroid u)), r1) ∧
     get_bounds r1 = (Ok (Some (geom_bounds u)), r1) ∧
     (∃ area, calculate_area r1 = (Ok area, after)) ∧
     (∃ perimeter, calculate_perimeter r1 = (Ok perimeter, after))).
Proof.
  intros H. pose proof (unify_lots_ok _ _ _ H) as [Hu Hg].
  split; [exact Hu|]. split; [by apply (unify_lots_again r)|].
  intros u ->. cbv zeta. split_and!.
  - by apply (ensure_unified_cached r1 u).
  - by apply get_centroid_cases.
  - by apply get_bounds_cases.
  - rewrite calculate_area_measure. by apply (measure_cached _ _ _ r1 u).
  - rewrite calculate_perimeter_measure. by apply (measure_cached _ _ _ r1 u).
Qed.

Lemma unify_lots_second_call_witness :
  ∃ u r1, unify_lots (start Grid.two_parcels) = (Ok (Some u), r1) ∧
    unified_geometry (self r1) = Some u ∧
    (∃ r2, unify_lots r1 = (Ok (Some u), r2) ∧
           self r2 = self r1 ∧
           lib_calls r2 =
             lib_calls r1 ++
               (if length (geometry (gdf (self r1))) =? 1 then []
                else [CallUnaryUnion (geometry (gdf (self r1)))])) ∧
    let after := {| self := self r1;
                    lib_calls := lib_calls r1 ++ metric_calls (gdf (self r1)) |} in
    ensure_unified r1 = (Ok tt, r1) ∧
    get_centroid r1 = (Ok (Some (geom_centroid u)), r1) ∧
    get_bounds r1 = (Ok (Some (geom_bounds u)), r1) ∧
    (∃ area, calculate_area r1 = (Ok area, after)) ∧
    (∃ perimeter, calculate_perimeter r1 = (Ok perimeter, after)).
Proof.
  eexists _, _. split; [reflexivity|].
  lazymatch goal with
  | |- unified_geometry (self ?r1) = Some ?u ∧ _ =>
      destruct (unify_lots_second_call Grid.lib (start Grid.two_parcels) r1 (Some u)
                  eq_refl) as (Hstored & Hagain & Hcallers)
  end.
  split; [exact Hstored|]. split; [exact Hagain|].
  apply Hcallers. reflexivity.
Defined.

(** C6. When the reprojection to the metric CRS raises, the step before it
    having gone through and left the degree-based geometry [g] stored (as it
    does unless the selection is a single parcel without geometry),
    [calculate_area] returns the area of [g] times 111320 squared and
    [calculate_perimeter] returns its length times 111320, each rounded to 2
    decimals, as an ordinary result. *)
Theorem metric_fallback (L : GeoLib) (r r1 : Run) (g : Geometry) (e : string) :
  ensure_unified r = (Ok tt, r1) →
  unified_geometry (self r1) = Some g →
  to_crs (gdf (self r)) "EPSG:31984" = Raise e →
  (calculate_area r).1
    = Ok (PyFloat.round
            (PyFloat.mul (geom_area g) (PyFloat.of_Z (111320 * 111320))) 2) ∧
  (calculate_perimeter r).1
    = Ok (PyFloat.round
            (PyFloat.mul (geom_length g) (PyFloat.of_Z 111320)) 2).
Proof.
  intros Hen Hg Hcrs.
  rewrite calculate_area_measure, calculate_perimeter_measure.
  split; by apply (measure_fallback _ _ _ r r1 g e).
Qed.

Lemma metric_fallback_witness :
  ∃ g, unified_geometry (self (ensure_unified (start Grid.naive_parcels)).2) = Some g ∧
       (calculate_area (start Grid.naive_parcels)).1
         = Ok (PyFloat.round
                 (PyFloat.mul (geom_area g) (PyFloat.of_Z (111320 * 111320))) 2) ∧
       (calculate_perimeter (start Grid.naive_parcels)).1
         = Ok (PyFloat.round
                 (PyFloat.mul (geom_length g) (PyFloat.of_Z 111320)) 2).
Proof.
  eexists. split; [reflexivity|].
  lazymatch goal with
  | |- context [geom_area ?g] =>
      apply (metric_fallback Grid.lib (start Grid.naive_parcels)
               (ensure_unified (start Grid.naive_parcels)).2 g
               "Cannot transform naive geometries.  Please set a crs on the object first.")
  end.
  - reflexivity.
  - reflexivity.
  - reflexivity.
Defined.

Section ZoningFacts.
Context {P : FloatParser}.

(** Both methods: look the value up, read it as a number, multiply, round;
    nothing is returned when reading the value raises. *)
Lemma calculate_buildable_area_eq (self : ZoningCalculator) :
  calculate_buildable_area self =
    match as_number (dict_get (params self) "coeficiente"
                       (dict_get (params self) "ca"
                          (One (SFloat (PyFloat.lit 10 (-1)))))) with
    | Ok ca => Some (PyFloat.round (PyFloat.mul (area_terreno self) ca) 2)
    | Raise _ => None
    end.
Proof.
  unfold calculate_buildable_area, as_number, or_None.
  unfold mbind, result_mbind, result_bind.
  destruct (first_if_sequence _) as [x|]; [|reflexivity].
  destruct (py_float x); reflexivity.
Qed.

Lemma calculate_footprint_eq (self : ZoningCalculator) :
  calculate_footprint self =
    match as_number (dict_get (params self) "taxa_ocupacao"
                       (dict_get (params self) "to"
                          (One (SFloat (PyFloat.lit 5 (-1)))))) with
    | Ok to => Some (PyFloat.round (PyFloat.mul (area_terreno self) to) 2)
    | Raise _ => None
    end.
Proof.
  unfold calculate_footprint, as_number, or_None.
  unfold mbind, result_mbind, result_bind.
  destruct (first_if_sequence _) as [x|]; [|reflexivity].
  destruct (py_float x); reflexivity.
Qed.

End ZoningFacts.

(** C4. With neither ["coeficiente"] nor ["ca"] among the parameters
    [calculate_buildable_area] uses the coefficient 1.0, and with neither
    ["taxa_ocupacao"] nor ["to"] [calculate_footprint] uses the rate 0.5; on
    an empty parameter set and a terrain area of 1000.0 they return 1000.0
    and 500.0; and when the value looked up cannot be read as a number the
    method returns [None] instead of raising. *)
Theorem zoning_defaults (P : FloatParser) (area : float) (p : gmap string PyVal) :
  let calc := {| area_terreno := area; params := p |} in
  let empty := {| area_terreno := PyFloat.lit 1000 0; params := ∅ |} in
  (p !! "coeficiente" = None → p !! "ca" = None →
   calculate_buildable_area calc
     = Some (PyFloat.round (PyFloat.mul area (PyFloat.lit 10 (-1))) 2)) ∧
  (p !! "taxa_ocupacao" = None → p !! "to" = None →
   calculate_footprint calc
     = Some (PyFloat.round (PyFloat.mul area (PyFloat.lit 5 (-1))) 2)) ∧
  calculate_buildable_area empty = Some (PyFloat.lit 1000 0) ∧
  calculate_footprint empty = Some (PyFloat.lit 500 0) ∧
  (∀ e, as_number (dict_get p "coeficiente"
                     (dict_get p "ca" (One (SFloat (PyFloat.lit 10 (-1))))))
          = Raise e →
        calculate_buildable_area calc = None) ∧
  (∀ e, as_number (dict_get p "taxa_ocupacao"
                     (dict_get p "to" (One (SFloat (PyFloat.lit 5 (-1))))))
          = Raise e →
        calculate_footprint calc = None).
Proof.
  cbv zeta. split_and!.
  - intros H1 H2. rewrite calculate_buildable_area_eq. cbn [params area_terreno].
    unfold dict_get. rewrite H1, H2. reflexivity.
  - intros H1 H2. rewrite calculate_footprint_eq. cbn [params area_terreno].
    unfold dict_get. rewrite H1, H2. reflexivity.
  - vm_compute. reflexivity.
  - vm_compute. reflexivity.
  - intros e He. rewrite calculate_buildable_area_eq. cbn [params area_terreno].
    rewrite He. reflexivity.
  - intros e He. rewrite calculate_footprint_eq. cbn [params area_terreno].
    rewrite He. reflexivity.
Qed.

(** C10. The abbreviation is consulted only when the canonical key is
    absent.  A canonical key bound to a value that cannot be read as a number
    makes the method return [None] whatever the abbreviation is bound to;
    with the canonical key absent, the value of the abbreviation is the one
    used. *)
Theorem canonical_key_shadows (P : FloatParser) (area : float)
    (p : gmap string PyVal) :
  let calc := {| area_terreno := area; params := p |} in
  (∀ v e, p !! "coeficiente" = Some v → as_number v = Raise e →
          calculate_buildable_area calc = None) ∧
  (∀ v e, p !! "taxa_ocupacao" = Some v → as_number v = Raise e →
          calculate_footprint calc = None) ∧
  (∀ v ca, p !! "coeficiente" = None → p !! "ca" = Some v → as_number v = Ok ca →
           calculate_buildable_area calc
             = Some (PyFloat.round (PyFloat.mul area ca) 2)) ∧
  (∀ v to, p !! "taxa_ocupacao" = None → p !! "to" = Some v → as_number v = Ok to →
           calculate_footprint calc
             = Some (PyFloat.round (PyFloat.mul area to) 2)).
Proof.
  cbv zeta. split_and!.
  - intros v e Hv He. rewrite calculate_buildable_area_eq. cbn [params area_terreno].
    unfold dict_get at 1. rewrite Hv.
    change (default _ (Some v)) with v. rewrite He. reflexivity.
  - intros v e Hv He. rewrite calculate_footprint_eq. cbn [params area_terreno].
    unfold dict_get at 1. rewrite Hv.
    change (default _ (Some v)) with v. rewrite He. reflexivity.
  - intros v ca Hc Hv Hn. rewrite calculate_buildable_area_eq.
    cbn [params area_terreno]. unfold dict_get. rewrite Hc, Hv.
    change (default _ None) with v. rewrite Hn. reflexivity.
  - intros v to Hc Hv Hn. rewrite calculate_footprint_eq.
    cbn [params area_terreno]. unfold dict_get. rewrite Hc, Hv.
    change (default _ None) with v. rewrite Hn. reflexivity.
Qed.

(** ** Sorting and distinct values *)

Lemma SFcompare_antisym (x y : float) :
  SFcompare y x = option_map CompOpp (SFcompare x y).
Proof.
  destruct x as [sx|sx| |sx mx ex], y as [sy|sy| |sy my ey]; cbn;
    try reflexivity; try (destruct sx; reflexivity);
    try (destruct sy; reflexivity);
    try (destruct sx, sy; reflexivity).
  destruct sx, sy; cbn; try reflexivity;
    rewrite (Z.compare_antisym ex ey);
    pose proof (Pos.compare_cont_antisym mx my Eq) as Hm; cbn in Hm;
    destruct (ex ?= ey)%Z; cbn; try reflexivity;
    rewrite <- Hm; destruct (Pos.compare_cont Eq mx my); reflexivity.
Qed.

Lemma SFcompare_refl (x : float) :
  PyFloat.is_nan x = false → SFcompare x x = Some Eq.
Proof.
  destruct x as [s|s| |s m e]; cbn; try done.
  - destruct s; reflexivity.
  - intros _. rewrite Z.compare_refl, Pos.compare_cont_refl.
    destruct s; reflexivity.
Qed.

Lemma py_lt_total (k : Kind) (a b : Scalar) :
  of_kind k a → of_kind k b → ∃ t, py_lt a b = Ok t.
Proof. destruct k, a, b; cbn; try done; eauto. Qed.

Lemma py_lt_asym (k : Kind) (a b : Scalar) :
  of_kind k a → of_kind k b → py_lt a b = Ok true → py_le a b.
Proof.
  unfold py_le.
  destruct k, a as [|x|x|x], b as [|y|y|y]; cbn; try done; intros _ _ [= H]; f_equal.
  - unfold String.ltb in *. rewrite String.compare_antisym.
    destruct (x ?= y)%string; done.
  - lia.
  - unfold PyFloat.ltb, SFltb in *. rewrite SFcompare_antisym.
    destruct (SFcompare x y) as [[]|]; done.
Qed.

Lemma py_eqb_refl (k : Kind) (a : Scalar) : of_kind k a → py_eqb a a = true.
Proof.
  destruct k, a; cbn; try done; intros H.
  - apply String.eqb_refl.
  - apply Z.eqb_refl.
  - unfold PyFloat.eqb, SFeqb. by rewrite SFcompare_refl.
Qed.

Lemma py_insert_sorted (k : Kind) (x : Scalar) (l : list Scalar) :
  of_kind k x → Forall (of_kind k) l →
  ∃ l', py_insert x l = Ok l' ∧ Permutation (x :: l) l' ∧
        Forall (of_kind k) l' ∧
        (Sorted py_le l → Sorted py_le l') ∧
        (∀ y, py_le y x → HdRel py_le y l → HdRel py_le y l').
Proof.
  intros Hx. induction 1 as [|y l Hy Hl IH]; cbn.
  - eexists. split; [reflexivity|]. split; [done|]. split; [by constructor|].
    split; intros; repeat constructor; done.
  - destruct (py_lt_total k y x Hy Hx) as [t Ht]. rewrite Ht. cbn.
    destruct t.
    + destruct IH as (l' & -> & Hperm & Hk & Hs & Hh). cbn.
      eexists. split; [reflexivity|].
      split; [rewrite perm_swap; by constructor|].
      split; [by constructor|]. split.
      * intros Hsorted. apply Sorted_inv in Hsorted as [Hsl Hhd].
        constructor; [auto|]. apply Hh; [|done].
        by apply (py_lt_asym k).
      * intros z Hzx Hz. apply HdRel_inv in Hz. by constructor.
    + eexists. split; [reflexivity|]. split; [done|].
      split; [by repeat constructor|]. split.
      * intros Hsorted. constructor; [done|]. constructor. exact Ht.
      * intros z Hzx _. by constructor.
Qed.

Lemma sorted_sorts (k : Kind) (l : list Scalar) :
  Forall (of_kind k) l →
  ∃ l', sorted l = Ok l' ∧ Permutation l l' ∧ Forall (of_kind k) l' ∧
        Sorted py_le l'.
Proof.
  induction 1 as [|x l Hx Hl IH]; cbn.
  - exists []. repeat split; constructor.
  - destruct IH as (l1 & -> & Hperm & Hk & Hs). cbn.
    destruct (py_insert_sorted k x l1 Hx Hk) as (l' & -> & Hperm' & Hk' & Hs' & _).
    exists l'. split; [done|]. split; [|auto].
    by rewrite <- Hperm', Hperm.
Qed.

Lemma dropna_kind (c : Column) : Forall (of_kind (column_kind c)) (dropna (tolist c)).
Proof.
  unfold dropna. apply List.Forall_forall. intros v Hv.
  apply List.filter_In in Hv as [Hin Hna].
  destruct c as [cells|cells|cells]; cbn in Hin;
    apply list_elem_of_In, list_elem_of_fmap in Hin as (x & -> & _); cbn in *.
  - by destruct x.
  - done.
  - by apply negb_true_iff.
Qed.

Lemma unique_from_elem (seen l : list Scalar) (v : Scalar) :
  v ∈ unique_from seen l → v ∈ l.
Proof.
  revert seen. induction l as [|x l IH]; intros seen; cbn; [done|].
  destruct (existsb (py_eqb x) seen).
  - intros H. right. eauto.
  - intros [->|H]%elem_of_cons; [left|right; eauto].
Qed.

Lemma unique_from_fresh (seen l : list Scalar) :
  Forall (λ w, existsb (py_eqb w) seen = false) (unique_from seen l).
Proof.
  revert seen. induction l as [|x l IH]; intros seen; cbn; [constructor|].
  destruct (existsb (py_eqb x) seen) eqn:Hx; [apply IH|].
  constructor; [done|].
  eapply Forall_impl; [apply IH|]. cbn. intros w Hw.
  apply orb_false_iff in Hw as [_ Hw]. exact Hw.
Qed.

Lemma unique_from_NoDup (k : Kind) (seen l : list Scalar) :
  Forall (of_kind k) l → NoDup (unique_from seen l).
Proof.
  intros Hl. revert seen. induction Hl as [|x l Hx Hl IH]; intros seen; cbn.
  - constructor.
  - destruct (existsb (py_eqb x) seen); [apply IH|].
    constructor; [|apply IH].
    intros Hin. pose proof (unique_from_fresh (x :: seen) l) as Hf.
    rewrite Forall_forall in Hf. specialize (Hf x Hin). cbn in Hf.
    by rewrite (py_eqb_refl k x Hx) in Hf.
Qed.

Lemma unique_from_complete (k : Kind) (seen l : list Scalar) (v : Scalar) :
  Forall (of_kind k) l → v ∈ l →
  ∃ w, (w ∈ seen ∨ w ∈ unique_from seen l) ∧ py_eqb v w = true.
Proof.
  intros Hl. revert seen. induction Hl as [|x l Hx Hl IH]; intros seen Hv.
  - by apply elem_of_nil in Hv.
  - cbn. apply elem_of_cons in Hv as [->|Hv].
    + destruct (existsb (py_eqb x) seen) eqn:Hex.
      * apply existsb_exists in Hex as (w & Hw & Heq).
        exists w. split; [left; by apply list_elem_of_In|done].
      * exists x. split; [right; left|]. by apply (py_eqb_refl k).
    + destruct (existsb (py_eqb x) seen).
      * apply IH, Hv.
      * destruct (IH (x :: seen) Hv) as (w & [Hw|Hw] & Heq).
        -- apply elem_of_cons in Hw as [->|Hw].
           ++ exists x. split; [right; left|done].
           ++ exists w. split; [by left|done].
        -- exists w. split; [right; by right|done].
Qed.

Lemma unique_kind (k : Kind) (l : list Scalar) :
  Forall (of_kind k) l → Forall (of_kind k) (unique l).
Proof.
  intros Hl. apply Forall_forall. intros v Hv.
  apply unique_from_elem in Hv. rewrite Forall_forall in Hl. auto.
Qed.

Section StoreFacts.
Context {L : GeoLib}.

Lemma resolve_column_Some (candidates : list string) (data : GeoDataFrame) (c : string) :
  resolve_column candidates data = Some c ↔
  ∃ before after, candidates = before ++ c :: after ∧
                  has_column data c = true ∧
                  ∀ b, b ∈ before → has_column data b = false.
Proof.
  induction candidates as [|x rest IH]; cbn.
  - split; [done|]. intros (before & after & H & _). by destruct before.
  - destruct (has_column data x) eqn:Hx.
    + split.
      * intros [= ->]. exists [], rest. split; [done|]. split; [done|].
        intros b Hb. by apply elem_of_nil in Hb.
      * intros ([|b before] & after & Heq & Hc & Hb).
        -- by injection Heq as -> _.
        -- injection Heq as -> _. rewrite Hb in Hx; [done|left].
    + rewrite IH. split.
      * intros (before & after & -> & Hc & Hb).
        exists (x :: before), after. split; [done|]. split; [done|].
        intros b [->|Hin]%elem_of_cons; auto.
      * intros ([|b before] & after & Heq & Hc & Hb).
        -- injection Heq as -> _. congruence.
        -- injection Heq as -> ->. exists before, after.
           split; [done|]. split; [done|]. intros b' Hb'. apply Hb. by right.
Qed.

Lemma resolve_column_None (candidates : list string) (data : GeoDataFrame) :
  resolve_column candidates data = None ↔
  ∀ c, c ∈ candidates → has_column data c = false.
Proof.
  induction candidates as [|x rest IH]; cbn.
  - split; [|done]. intros _ c Hc. by apply elem_of_nil in Hc.
  - destruct (has_column data x) eqn:Hx.
    + split; [done|]. intros H. rewrite H in Hx; [done|left].
    + rewrite IH. split.
      * intros H c [->|Hc]%elem_of_cons; auto.
      * intros H c Hc. apply H. by right.
Qed.

Lemma assoc_Some (col : string) (cols : list (string * Column)) :
  col ∈ cols.*1 → ∃ c, assoc col cols = Some c.
Proof.
  induction cols as [|[name c] cols IH]; cbn.
  - intros H. by apply elem_of_nil in H.
  - intros H. destruct (String.eqb_spec col name) as [->|Hne]; [eauto|].
    apply elem_of_cons in H as [->|H]; [done|auto].
Qed.

Lemma has_column_attr (data : GeoDataFrame) (col : string) :
  has_column data col = true → col ≠ "geometry" →
  ∃ c, assoc col (attrs data) = Some c.
Proof.
  unfold has_column, columns. intros H Hne.
  apply bool_decide_eq_true in H. apply elem_of_app in H as [H|H].
  - by apply assoc_Some.
  - apply list_elem_of_singleton in H. done.
Qed.

End StoreFacts.

(** C5. Column resolution takes the first candidate that is a column of the
    table, in the order of the candidate list; in particular the candidates
    ["bairro"], ["BAIRRO"], ["nome"] resolve to ["BAIRRO"] on a table that
    has ["BAIRRO"] and ["nome"] and no ["bairro"].  When [get_bairros]
    resolves a column it answers with the distinct non-missing values of
    that column in ascending order; when no candidate is a column it answers
    400 with the column-not-found error and the list of the table's
    columns. *)
Theorem get_bairros_resolution (L : GeoLib) (data : GeoDataFrame) :
  (∀ candidates c,
     resolve_column candidates data = Some c ↔
     ∃ before after, candidates = before ++ c :: after ∧
                     has_column data c = true ∧
                     ∀ b, b ∈ before → has_column data b = false) ∧
  (has_column data "bairro" = false → has_column data "BAIRRO" = true →
   has_column data "nome" = true →
   resolve_column ["bairro"; "BAIRRO"; "nome"] data = Some "BAIRRO") ∧
  (∀ col, resolve_column bairro_candidates data = Some col →
     ∃ column bairros,
       assoc col (attrs data) = Some column ∧
       get_bairros (Some data)
         = ({| payload := Bairros bairros (length bairros); status := 200 |},
            Some data) ∧
       Sorted py_le bairros ∧
       NoDup bairros ∧
       Permutation (unique (dropna (tolist column))) bairros ∧
       (∀ v, v ∈ bairros → v ∈ tolist column ∧ isna v = false) ∧
       (∀ v, v ∈ tolist column → isna v = false →
             ∃ w, w ∈ bairros ∧ py_eqb v w = true)) ∧
  (resolve_column bairro_candidates data = None →
   get_bairros (Some data)
     = ({| payload := FailureColumns "Coluna de bairro não encontrada no GeoJSON"
                        (columns data);
           status := 400 |}, Some data)).
Proof.
  split_and!.
  - intros candidates c. apply resolve_column_Some.
  - intros H1 H2 _. cbn. by rewrite H1, H2.
  - intros col Hcol.
    assert (Hin : col ∈ bairro_candidates ∧ has_column data col = true).
    { apply resolve_column_Some in Hcol as (before & after & Heq & Hc & _).
      split; [|done]. rewrite Heq. apply elem_of_app. right. left. }
    destruct Hin as [Hin Hhas].
    destruct (has_column_attr data col Hhas) as [column Hassoc].
    { intros ->. unfold bairro_candidates in Hin.
      repeat (apply elem_of_cons in Hin as [Hin|Hin]; [discriminate|]).
      by apply elem_of_nil in Hin. }
    pose proof (dropna_kind column) as Hkind.
    pose proof (unique_kind _ _ Hkind) as Hukind.
    destruct (sorted_sorts _ _ Hukind) as (bairros & Hsort & Hperm & _ & Hsorted).
    exists column, bairros. split; [done|]. split.
    { unfold get_bairros. rewrite Hcol. unfold getitem. rewrite Hassoc.
      cbn. rewrite Hsort. reflexivity. }
    split; [done|]. split.
    { rewrite <- Hperm. by apply (unique_from_NoDup (column_kind column)). }
    split; [done|]. split.
    + intros v Hv. rewrite <- Hperm in Hv. apply unique_from_elem in Hv.
      apply list_elem_of_In, List.filter_In in Hv as [Hv Hna].
      split; [by apply list_elem_of_In|]. by apply negb_true_iff.
    + intros v Hv Hna.
      destruct (unique_from_complete (column_kind column) [] _ v Hkind)
        as (w & [Hw|Hw] & Heq).
      { apply list_elem_of_In, List.filter_In. split; [by apply list_elem_of_In|].
        by rewrite Hna. }
      { by apply elem_of_nil in Hw. }
      exists w. split; [|done]. by rewrite <- Hperm.
  - intros Hnone. unfold get_bairros. rewrite Hnone. reflexivity.
Qed.

(** C9. With the store loaded, [get_lote_info] answers an index below 0 or
    at least the number of parcels with 400 and the invalid-index error, and
    [unir_lotes] answers a request whose ["indices"] are missing or empty
    with 400 and the nothing-selected error; both leave the store as it
    was, as every call of the two handlers does. *)
Theorem invalid_selection_rejected (L : GeoLib) (data : GeoDataFrame) :
  (∀ index, (index < 0 ∨ index >= Z.of_nat (len data))%Z →
     get_lote_info index (Some data)
       = (failure "Índice de lote inválido" 400, Some data)) ∧
  (∀ fields, truthy (default (JList []) (fields !! "indices")) = false →
     unir_lotes (Ok (Object fields)) (Some data)
       = (failure "Nenhum lote selecionado" 400, Some data)) ∧
  (∀ fields, fields !! "indices" = None ∨ fields !! "indices" = Some (JList []) →
     unir_lotes (Ok (Object fields)) (Some data)
       = (failure "Nenhum lote selecionado" 400, Some data)) ∧
  (∀ store index, (get_lote_info index store).2 = store) ∧
  (∀ store request, (unir_lotes request store).2 = store).
Proof.
  assert (Hfalsy : ∀ fields,
    truthy (default (JList []) (fields !! "indices")) = false →
    unir_lotes (Ok (Object fields)) (Some data)
      = (failure "Nenhum lote selecionado" 400, Some data)).
  { intros fields H. unfold unir_lotes. cbn. rewrite H. reflexivity. }
  split_and!.
  - intros index H. unfold get_lote_info.
    rewrite bool_decide_eq_true_2 by exact H. reflexivity.
  - exact Hfalsy.
  - intros fields [H|H]; apply Hfalsy; rewrite H; reflexivity.
  - intros store index. reflexivity.
  - intros store request. reflexivity.
Qed.

Lemma invalid_selection_rejected_witness :
  get_lote_info 2 (Some Grid.two_parcels)
    = (failure "Índice de lote inválido" 400, Some Grid.two_parcels) ∧
  get_lote_info (-1) (Some Grid.two_parcels)
    = (failure "Índice de lote inválido" 400, Some Grid.two_parcels) ∧
  unir_lotes (Ok (Object {[ "indices" := JList [] ]})) (Some Grid.two_parcels)
    = (failure "Nenhum lote selecionado" 400, Some Grid.two_parcels).
Proof.
  pose proof (invalid_selection_rejected Grid.lib Grid.two_parcels)
    as (Hindex & _ & Hempty & _).
  split_and!.
  - apply Hindex. right. cbn. lia.
  - apply Hindex. left. lia.
  - apply Hempty. right. reflexivity.
Defined.

(** Refutes a membership of a literal in a literal list. *)
Ltac absurd_member H :=
  exfalso; apply (bool_decide_eq_true_2 _) in H; vm_compute in H; discriminate H.

(** A loop that stores one entry per column. *)
Lemma for_each_entries {V} (step : gmap string V → string → result (gmap string V))
    (entry : string → option V) (cols : list string) (d : gmap string V) :
  (∀ d col, col ∈ cols →
     step d col = Ok (match entry col with Some v => <[col := v]> d | None => d end)) →
  ∃ d', for_each step cols d = Ok d' ∧
        ∀ k, d' !! k = match (if bool_decide (k ∈ cols) then entry k else None) with
                       | Some v => Some v
                       | None => d !! k
                       end.
Proof.
  revert d. induction cols as [|x cols IH]; intros d Hstep; cbn.
  - exists d. split; [done|]. intros k. rewrite bool_decide_eq_false_2; [done|].
    apply not_elem_of_nil.
  - rewrite Hstep by left. cbn.
    destruct (IH (match entry x with Some v => <[x := v]> d | None => d end))
      as (d' & -> & Hd').
    { intros d0 col Hcol. apply Hstep. by right. }
    exists d'. split; [done|]. intros k. rewrite Hd'.
    destruct (decide (k = x)) as [->|Hne].
    + rewrite (bool_decide_eq_true_2 (x ∈ x :: cols)) by left.
      destruct (bool_decide (x ∈ cols)); destruct (entry x); try done.
      by rewrite lookup_insert_eq.
    + assert (bool_decide (k ∈ x :: cols) = bool_decide (k ∈ cols)) as ->.
      { apply bool_decide_ext. rewrite elem_of_cons.
        split; [intros [?|?]; done | by right]. }
      destruct (bool_decide (k ∈ cols)); [destruct (entry k); try done|];
        destruct (entry x); try done; by rewrite lookup_insert_ne.
Qed.

Section ZoningInfo.
Context {L : GeoLib}.

Lemma column_values_absent (data : GeoDataFrame) (col : string) :
  has_column data col = false → column_values data col = [].
Proof.
  intros Hc. unfold column_values.
  destruct (assoc col (attrs data)) as [c|] eqn:Ha; [|done].
  exfalso. apply bool_decide_eq_false in Hc. apply Hc.
  unfold columns. apply elem_of_app. left.
  clear Hc. induction (attrs data) as [|[n c'] l IH]; cbn in *; [done|].
  destruct (String.eqb_spec col n) as [->|]; [left|right; auto].
Qed.

Lemma getitem_present (data : GeoDataFrame) (col : string) :
  has_column data col = true → col ≠ "geometry" →
  ∃ cells, getitem data col = Ok cells ∧ dropna cells = column_values data col.
Proof.
  intros Hc Hne. unfold column_values, getitem.
  destruct (has_column_attr data col Hc Hne) as [c ->]. eauto.
Qed.

Lemma zoning_step_entry (g : GeoDataFrame) (d : gmap string PyVal) (col : string) :
  col ≠ "geometry" →
  zoning_step g d col
    = Ok (match recorded (unique (column_values g col)) with
          | Some v => <[col := v]> d
          | None => d
          end).
Proof.
  intros Hne. unfold zoning_step.
  destruct (has_column g col) eqn:Hc.
  - destruct (getitem_present g col Hc Hne) as (cells & -> & <-). cbn.
    unfold record_values, recorded. by destruct (unique (dropna cells)).
  - by rewrite column_values_absent.
Qed.

Lemma param_step_entry (g : GeoDataFrame) (d : gmap string PyVal) (col : string) :
  col ≠ "geometry" →
  param_step g d col
    = Ok (match recorded (column_values g col) with
          | Some v => <[col := v]> d
          | None => d
          end).
Proof.
  intros Hne. unfold param_step.
  destruct (has_column g col) eqn:Hc.
  - destruct (getitem_present g col Hc Hne) as (cells & -> & <-). cbn.
    unfold record_values, recorded. by destruct (dropna cells).
  - by rewrite column_values_absent.
Qed.

Lemma info_step_entry (g : GeoDataFrame) (d : gmap string (list Scalar)) (col : string) :
  col ≠ "geometry" →
  info_step g d col
    = Ok (match (match unique (column_values g col) with
                 | [] => None
                 | vs => Some vs
                 end) with
          | Some v => <[col := v]> d
          | None => d
          end).
Proof.
  intros Hne. unfold info_step.
  destruct (has_column g col) eqn:Hc.
  - destruct (getitem_present g col Hc Hne) as (cells & -> & <-). cbn.
    by destruct (unique (dropna cells)).
  - by rewrite column_values_absent.
Qed.

(** The dictionary before the status entry is decided. *)
Lemma zoning_loops (g : GeoDataFrame) :
  ∃ d1 d, for_each (zoning_step g) zoning_columns ∅ = Ok d1 ∧
          for_each (param_step g) param_columns d1 = Ok d ∧
       ∀ k, d !! k =
            if bool_decide (k ∈ zoning_columns) then recorded (unique (column_values g k))
            else if bool_decide (k ∈ param_columns) then recorded (column_values g k)
            else None.
Proof.
  destruct (for_each_entries (zoning_step g)
              (λ col, recorded (unique (column_values g col))) zoning_columns ∅)
    as (d1 & Hd1 & Hl1).
  { intros d col Hcol. apply zoning_step_entry. intros ->.
    absurd_member Hcol. }
  destruct (for_each_entries (param_step g)
              (λ col, recorded (column_values g col)) param_columns d1)
    as (d2 & Hd2 & Hl2).
  { intros d col Hcol. apply param_step_entry. intros ->.
    absurd_member Hcol. }
  exists d1, d2. split; [exact Hd1|]. split; [exact Hd2|].
  intros k. rewrite Hl2, Hl1, lookup_empty.
  destruct (bool_decide (k ∈ zoning_columns)) eqn:Hz;
    destruct (bool_decide (k ∈ param_columns)) eqn:Hp; try done.
  - exfalso. apply bool_decide_eq_true in Hz. unfold zoning_columns in Hz.
    repeat (apply elem_of_cons in Hz as [->|Hz]; [vm_compute in Hp; discriminate Hp|]).
    by apply elem_of_nil in Hz.
  - by destruct (recorded (unique (column_values g k))).
  - by destruct (recorded (column_values g k)).
Qed.

Lemma unique_nil (vs : list Scalar) : unique vs = [] ↔ vs = [].
Proof. destruct vs; cbn; split; done. Qed.

Lemma recorded_None (vs : list Scalar) : recorded vs = None ↔ vs = [].
Proof. destruct vs; cbn; split; done. Qed.

Lemma extract_zoning_info_eq (s : TerrainAnalyzer) :
  ∃ d, extract_zoning_info s
         = (if bool_decide (d = ∅)
            then <["status" := One (SStr status_unavailable)]> d else d) ∧
       ∀ k, d !! k =
            if bool_decide (k ∈ zoning_columns)
            then recorded (unique (column_values (gdf s) k))
            else if bool_decide (k ∈ param_columns)
                 then recorded (column_values (gdf s) k)
                 else None.
Proof.
  destruct (zoning_loops (gdf s)) as (d1 & d & H1 & H2 & Hl).
  exists d. split; [|exact Hl].
  unfold extract_zoning_info. rewrite H1.
  unfold mbind at 1, result_mbind at 1, result_bind at 1. rewrite H2. reflexivity.
Qed.

End ZoningInfo.

Section InfoFacts.
Context {L : GeoLib}.

Lemma info_loop (g : GeoDataFrame) :
  ∃ d, for_each (info_step g) info_columns ∅ = Ok d ∧
       ∀ k, d !! k = if bool_decide (k ∈ info_columns)
                     then match unique (column_values g k) with
                          | [] => None
                          | vs => Some vs
                          end
                     else None.
Proof.
  destruct (for_each_entries (info_step g)
              (λ col, match unique (column_values g col) with
                      | [] => None | vs => Some vs end) info_columns ∅)
    as (d & Hd & Hl).
  { intros d col Hcol. apply info_step_entry. intros ->. absurd_member Hcol. }
  exists d. split; [done|]. intros k. rewrite Hl, lookup_empty.
  destruct (bool_decide (k ∈ info_columns)); [|done].
  by destruct (unique (column_values g k)).
Qed.

(** [extract_zoning_info] reads [self.gdf] only. *)
Lemma extract_zoning_info_gdf (s s' : TerrainAnalyzer) :
  gdf s = gdf s' → extract_zoning_info s = extract_zoning_info s'.
Proof. unfold extract_zoning_info. by intros ->. Qed.

(** [calculate_info] in terms of the two measurements. *)
Lemma calculate_info_run (r : Run) :
  calculate_info r =
    match calculate_area r with
    | (Raise e, r1) => (Ok (InfoError e (len (gdf (self r)))), r1)
    | (Ok area, r1) =>
        match calculate_perimeter r1 with
        | (Raise e, r2) => (Ok (InfoError e (len (gdf (self r)))), r2)
        | (Ok perimeter, r2) =>
            match for_each (info_step (gdf (self r))) info_columns ∅ with
            | Ok d =>
                (Ok (InfoOk
                   {| total_lotes := len (gdf (self r));
                      area_total_m2 := area;
                      area_total_hectares :=
                        PyFloat.round (PyFloat.div area (PyFloat.of_Z 10000)) 4;
                      perimetro_m := perimeter;
                      zoneamento := extract_zoning_info (self r);
                      informacoes_adicionais :=
                        if bool_decide (d = ∅) then None else Some d |}), r2)
            | Raise e => (Ok (InfoError e (len (gdf (self r)))), r2)
            end
        end
    end.
Proof.
  pose proof (keeps_gdf_measure "area" geom_area (PyFloat.of_Z (111320 * 111320)) r)
    as Ha.
  rewrite <- calculate_area_measure in Ha.
  unfold calculate_info, try_except.
  unfold mbind at 1, M_mbind at 1, M_bind at 1.
  destruct (calculate_area r) as [[area|e] r1] eqn:Harea; cbn in Ha.
  2: { run_M. by rewrite Ha. }
  pose proof (keeps_gdf_measure "length" geom_length (PyFloat.of_Z 111320) r1) as Hp.
  rewrite <- calculate_perimeter_measure in Hp.
  unfold mbind at 1, M_mbind at 1, M_bind at 1.
  destruct (calculate_perimeter r1) as [[perimeter|e] r2] eqn:Hperimeter; cbn in Hp.
  2: { run_M. by rewrite Hp, Ha. }
  run_M. rewrite Hp, Ha.
  rewrite (extract_zoning_info_gdf (self r2) (self r)) by (by rewrite Hp, Ha).
  destruct (for_each (info_step (gdf (self r))) info_columns ∅) as [d|e] eqn:Hd;
    cbn; by rewrite ?Hp, ?Ha.
Qed.

End InfoFacts.



Section LoadFacts.
Context {L : GeoLib}.



End LoadFacts.

(** The two transformations of the grid library are inverse to each
    other. *)
Lemma grid_round_trip (g : Grid.Cells) :
  Grid.to_projected (Grid.to_geographic g) = g ∧
  Grid.to_geographic (Grid.to_projected g) = g.
Proof.
  unfold Grid.to_projected, Grid.to_geographic.
  split; apply set_eq; intros [x y]; rewrite elem_of_map; split.
  - intros ([x1 y1] & Heq & ([x0 y0] & Heq' & Hin)%elem_of_map).
    cbn in *. simplify_eq. cbn.
    by replace (x0 - 40 + 40, y0 - 20 + 20)%Z with (x0, y0) by (f_equal; lia).
  - intros Hin. exists (x - 40, y - 20)%Z. split; [cbn; f_equal; lia|].
    apply elem_of_map. by exists (x, y).
  - intros ([x1 y1] & Heq & ([x0 y0] & Heq' & Hin)%elem_of_map).
    cbn in *. simplify_eq. cbn.
    by replace (x0 + 40 - 40, y0 + 20 - 20)%Z with (x0, y0) by (f_equal; lia).
  - intros Hin. exists (x + 40, y + 20)%Z. split; [cbn; f_equal; lia|].
    apply elem_of_map. by exists (x, y).
Qed.




(** C2, at the input where the code departs from it: two parcels that both
    carry the coefficient 2.0 and the zoning code ZR1.  The zoning code is
    recorded as the single value; the coefficient is recorded as the list
    of both values. *)
Theorem extract_zoning_info_on_agreeing_parcels :
  extract_zoning_info (new_analyzer Grid.two_parcels) !! "zona"
    = Some (One (SStr "ZR1")) ∧
  extract_zoning_info (new_analyzer Grid.two_parcels) !! "ca"
    = Some (Many [SFloat (PyFloat.lit 2 0); SFloat (PyFloat.lit 2 0)]).
Proof. split; vm_compute; reflexivity. Qed.

(** The theorems on the calculator and on the list of neighbourhoods at
    concrete inputs. *)

Lemma zoning_defaults_witness :
  calculate_buildable_area (P := Grid.parser)
      {| area_terreno := PyFloat.lit 1000 0; params := ∅ |}
    = Some (PyFloat.round
              (PyFloat.mul (PyFloat.lit 1000 0) (PyFloat.lit 10 (-1))) 2) ∧
  calculate_footprint (P := Grid.parser)
      {| area_terreno := PyFloat.lit 1000 0; params := ∅ |}
    = Some (PyFloat.round
              (PyFloat.mul (PyFloat.lit 1000 0) (PyFloat.lit 5 (-1))) 2) ∧
  calculate_buildable_area (P := Grid.parser)
      {| area_terreno := PyFloat.lit 1000 0;
         params := {[ "coeficiente" := One (SStr "abc") ]} |}
    = None.
Proof.
  pose proof (zoning_defaults Grid.parser (PyFloat.lit 1000 0) ∅) as H.
  pose proof (zoning_defaults Grid.parser (PyFloat.lit 1000 0)
                {[ "coeficiente" := One (SStr "abc") ]}) as H'.
  cbv zeta in H, H'.
  destruct H as (Hca & Hto & _). destruct H' as (_ & _ & _ & _ & Hbad & _).
  split_and!.
  - apply Hca; reflexivity.
  - apply Hto; reflexivity.
  - apply (Hbad "could not convert string to float: 'abc'"). reflexivity.
Defined.

Lemma canonical_key_shadows_witness :
  calculate_buildable_area (P := Grid.parser)
      {| area_terreno := PyFloat.lit 1000 0;
         params := {[ "coeficiente" := One (SStr "abc");
                      "ca" := One (SFloat (PyFloat.lit 2 0)) ]} |}
    = None ∧
  calculate_buildable_area (P := Grid.parser)
      {| area_terreno := PyFloat.lit 1000 0;
         params := {[ "ca" := One (SFloat (PyFloat.lit 2 0)) ]} |}
    = Some (PyFloat.round
              (PyFloat.mul (PyFloat.lit 1000 0) (PyFloat.lit 2 0)) 2).
Proof.
  pose proof (canonical_key_shadows Grid.parser (PyFloat.lit 1000 0)
                {[ "coeficiente" := One (SStr "abc");
                   "ca" := One (SFloat (PyFloat.lit 2 0)) ]}) as H.
  pose proof (canonical_key_shadows Grid.parser (PyFloat.lit 1000 0)
                {[ "ca" := One (SFloat (PyFloat.lit 2 0)) ]}) as H'.
  cbv zeta in H, H'.
  destruct H as (Hbad & _). destruct H' as (_ & _ & Habbr & _).
  split.
  - apply (Hbad (One (SStr "abc")) "could not convert string to float: 'abc'");
      reflexivity.
  - apply (Habbr (One (SFloat (PyFloat.lit 2 0)))); reflexivity.
Defined.

Lemma get_bairros_resolution_witness :
  resolve_column ["bairro"; "BAIRRO"; "nome"] Grid.two_parcels = Some "BAIRRO" ∧
  get_bairros (Some Grid.two_parcels)
    = ({| payload := Bairros [SStr "Centro"] 1; status := 200 |},
       Some Grid.two_parcels) ∧
  get_bairros (Some Grid.small_store)
    = ({| payload := Bairros [SStr "Centro"] 1; status := 200 |},
       Some Grid.small_store).
Proof.
  pose proof (get_bairros_resolution Grid.lib Grid.two_parcels)
    as (_ & Hexample & _).
  split; [apply Hexample; reflexivity|].
  split; reflexivity.
Defined.

(** * Further properties of the analyzer, the handlers and the calculator *)

(** X5. The entries of [extract_zoning_info].  A zoning column is stored
    under its name when it has non-missing cells: as the value when they
    are all equal, as the list of distinct values otherwise.  A parameter
    column is stored when it has non-missing cells: as the value when there
    is one such cell, as the list of all of them otherwise.  No other key
    than ["status"] is ever present, in particular no ["error"]. *)
Theorem extract_zoning_info_entries (L : GeoLib) (s : TerrainAnalyzer) :
  (∀ col, col ∈ zoning_columns →
     extract_zoning_info s !! col = recorded (unique (column_values (gdf s) col))) ∧
  (∀ col, col ∈ param_columns →
     extract_zoning_info s !! col = recorded (column_values (gdf s) col)) ∧
  (∀ k, k ∉ zoning_columns → k ∉ param_columns → k ≠ "status" →
     extract_zoning_info s !! k = None).
Proof.
  destruct (extract_zoning_info_eq s) as (d & -> & Hl).
  assert (Hother : ∀ k, k ≠ "status" →
    (if bool_decide (d = ∅)
     then <["status" := One (SStr status_unavailable)]> d else d) !! k = d !! k).
  { intros k Hk. destruct (bool_decide (d = ∅)); [|done].
    by rewrite lookup_insert_ne. }
  split_and!.
  - intros col Hcol. rewrite Hother, Hl.
    + by rewrite bool_decide_eq_true_2.
    + intros ->. absurd_member Hcol.
  - intros col Hcol. rewrite Hother, Hl.
    + rewrite (bool_decide_eq_true_2 (col ∈ param_columns)) by done.
      destruct (bool_decide (col ∈ zoning_columns)) eqn:Hz; [|done].
      exfalso. apply bool_decide_eq_true in Hz. unfold zoning_columns in Hz.
      apply (bool_decide_eq_true_2 _) in Hcol.
      repeat (apply elem_of_cons in Hz as [->|Hz];
              [vm_compute in Hcol; discriminate Hcol|]).
      by apply elem_of_nil in Hz.
    + intros ->. absurd_member Hcol.
  - intros k Hz Hp Hk. rewrite Hother, Hl by done.
    by rewrite !bool_decide_eq_false_2.
Qed.

(** X6. The result of [extract_zoning_info] is never empty.  When no zoning
    or parameter column has a non-missing cell it is the single ["status"]
    entry; as soon as one has, there is no ["status"] entry and that column
    has an entry. *)
Theorem extract_zoning_info_status (L : GeoLib) (s : TerrainAnalyzer) :
  extract_zoning_info s ≠ ∅ ∧
  ((∀ col, col ∈ zoning_columns ++ param_columns → column_values (gdf s) col = []) →
   extract_zoning_info s = {[ "status" := One (SStr status_unavailable) ]}) ∧
  (∀ col, col ∈ zoning_columns ++ param_columns → column_values (gdf s) col ≠ [] →
   extract_zoning_info s !! "status" = None ∧
   is_Some (extract_zoning_info s !! col)).
Proof.
  destruct (extract_zoning_info_eq s) as (d & -> & Hl).
  split_and!.
  - case_bool_decide as Hd.
    + intros He. apply (f_equal (lookup "status")) in He.
      by rewrite lookup_insert_eq, lookup_empty in He.
    + done.
  - intros Hall. assert (d = ∅) as ->.
    { apply map_eq. intros k. rewrite Hl, lookup_empty.
      case_bool_decide as Hz.
      - apply recorded_None, unique_nil, Hall, elem_of_app. by left.
      - case_bool_decide as Hp; [|done].
        apply recorded_None, Hall, elem_of_app. by right. }
    rewrite bool_decide_eq_true_2 by done. reflexivity.
  - intros col Hcol Hne.
    assert (Hsome : is_Some (d !! col)).
    { rewrite Hl. apply elem_of_app in Hcol.
      case_bool_decide as Hz.
      - destruct (recorded (unique (column_values (gdf s) col))) eqn:Hr; [eauto|].
        apply (proj1 (recorded_None _)), (proj1 (unique_nil _)) in Hr. done.
      - destruct Hcol as [?|Hp]; [done|]. rewrite bool_decide_eq_true_2 by done.
        destruct (recorded (column_values (gdf s) col)) eqn:Hr; [eauto|].
        apply (proj1 (recorded_None _)) in Hr. done. }
    rewrite bool_decide_eq_false_2.
    + split; [|done]. rewrite Hl. by vm_compute.
    + intros ->. rewrite lookup_empty in Hsome. by destruct Hsome.
Qed.

(** X1. [calculate_area] and [calculate_perimeter] raise in two situations
    only, both with no unified geometry stored: the union of the stored
    geometries of a selection of other than one parcel raises, and the
    exception is then the one of the union; or the selection is a single
    parcel without geometry, and the exception is then the [AttributeError]
    of reading the attribute on [None]. *)
Theorem area_perimeter_raise_iff (L : GeoLib) (r : Run) (e : string) :
  let geometries := geometry (gdf (self r)) in
  ((calculate_area r).1 = Raise e ↔
   unified_geometry (self r) = None ∧
   ((length geometries ≠ 1 ∧ unary_union geometries = Raise e) ∨
    (geometries = [None] ∧ e = no_attribute "area"))) ∧
  ((calculate_perimeter r).1 = Raise e ↔
   unified_geometry (self r) = None ∧
   ((length geometries ≠ 1 ∧ unary_union geometries = Raise e) ∨
    (geometries = [None] ∧ e = no_attribute "length"))).
Proof.
  cbv zeta. rewrite calculate_area_measure, calculate_perimeter_measure.
  rewrite !measure_raise_iff, union_of_stored_Raise. done.
Qed.

Section InfoCases.
Context {L : GeoLib}.

(** The two ways [calculate_info] can end. *)
Lemma calculate_info_cases (r : Run) :
  (∃ e r', calculate_info r = (Ok (InfoError e (len (gdf (self r)))), r') ∧
           (calculate_area r).1 = Raise e) ∨
  (∃ f d r', calculate_info r = (Ok (InfoOk f), r') ∧
        total_lotes f = len (gdf (self r)) ∧
        for_each (info_step (gdf (self r))) info_columns ∅ = Ok d ∧
        informacoes_adicionais f = (if bool_decide (d = ∅) then None else Some d) ∧
        ∃ area, (calculate_area r).1 = Ok area).
Proof.
  rewrite calculate_info_run.
  destruct (calculate_area r) as [[area|e] r1] eqn:Harea.
  - right. rewrite calculate_area_measure in Harea.
    destruct (measure_ok_stored _ _ _ _ _ _ Harea) as (g & Hg & _).
    destruct (measure_cached "length" geom_length (PyFloat.of_Z 111320) r1 g Hg)
      as (perimeter & Hper).
    rewrite calculate_perimeter_measure, Hper.
    destruct (info_loop (gdf (self r))) as (d & -> & _).
    eexists _, d, _. split; [reflexivity|]. cbn. eauto.
  - left. eauto.
Qed.

End InfoCases.

(** X3. [calculate_info] returns the error dictionary exactly when no
    unified geometry is stored and either the union of the stored geometries
    of a selection of other than one parcel raises, the error text being the
    one of the union, or the selection is a single parcel without geometry,
    the error text being the one of reading the area on [None]; the count is
    the number of parcels.  With a stored geometry, or with exactly one
    parcel that has a geometry, it returns the full dictionary. *)
Theorem calculate_info_error_iff (L : GeoLib) (r : Run) :
  let geometries := geometry (gdf (self r)) in
  (∀ e n, (calculate_info r).1 = Ok (InfoError e n) ↔
     n = len (gdf (self r)) ∧
     unified_geometry (self r) = None ∧
     ((length geometries ≠ 1 ∧ unary_union geometries = Raise e) ∨
      (geometries = [None] ∧ e = no_attribute "area"))) ∧
  (is_Some (unified_geometry (self r)) ∨ (∃ g, geometries = [Some g]) →
   ∃ f, (calculate_info r).1 = Ok (InfoOk f)).
Proof.
  cbv zeta.
  assert (Hraise : ∀ e, (calculate_area r).1 = Raise e ↔
    unified_geometry (self r) = None ∧
    ((length (geometry (gdf (self r))) ≠ 1 ∧
      unary_union (geometry (gdf (self r))) = Raise e) ∨
     (geometry (gdf (self r)) = [None] ∧ e = no_attribute "area"))).
  { intros e. rewrite calculate_area_measure, measure_raise_iff.
    by rewrite union_of_stored_Raise. }
  pose proof (calculate_info_cases r) as Hcases.
  split.
  - intros e n. rewrite <- Hraise.
    destruct Hcases as [(e' & r' & -> & He)|(f & d & r' & -> & _ & _ & _ & area & Ha)];
      cbn.
    + split.
      * intros [= -> ->]. done.
      * intros (-> & He'). rewrite He in He'. by injection He' as ->.
    + split; [done|]. intros (_ & He). congruence.
  - intros Hok.
    destruct Hcases as [(e' & r' & _ & He)|(f & d & r' & -> & _)]; [|eauto].
    exfalso. apply Hraise in He as [Hnone Hwhy].
    destruct Hok as [[g Hg]|[g Hg]]; [congruence|].
    rewrite Hg in Hwhy. destruct Hwhy as [[Hlen _]|[? _]]; [by cbn in Hlen|done].
Qed.

Section Metric.
Context {L : GeoLib}.

Lemma keeps_gdf_calculate_info : keeps_gdf calculate_info.
Proof.
  unfold calculate_info. apply keeps_gdf_try.
  - apply keeps_gdf_bind.
    { rewrite calculate_area_measure. apply keeps_gdf_measure. }
    intros area. apply keeps_gdf_bind.
    { rewrite calculate_perimeter_measure. apply keeps_gdf_measure. }
    intros perimeter. apply keeps_gdf_bind; [apply keeps_gdf_get_self|].
    intros s. apply keeps_gdf_bind; [apply keeps_gdf_lift|].
    intros d. apply keeps_gdf_ret.
  - intros e. apply keeps_gdf_bind; [apply keeps_gdf_get_self|].
    intros s. apply keeps_gdf_ret.
Qed.

Lemma calculate_info_cached (r : Run) (g : Geometry) :
  unified_geometry (self r) = Some g → self (calculate_info r).2 = self r.
Proof.
  intros Hg. rewrite calculate_info_run.
  rewrite calculate_area_measure, calculate_perimeter_measure.
  destruct (measure_cached "area" geom_area (PyFloat.of_Z (111320 * 111320)) r g Hg)
    as (a & ->).
  set (r1 := {| self := self r; lib_calls := _ |}).
  destruct (measure_cached "length" geom_length (PyFloat.of_Z 111320) r1 g Hg)
    as (p & ->).
  by destruct (for_each _ _ _).
Qed.

End Metric.

Section Selection.
Context {L : GeoLib}.

Lemma position_in_range (n : nat) (i : Z) :
  (- Z.of_nat n ≤ i < Z.of_nat n)%Z →
  ∃ p, position n i = Some p ∧ p < n ∧
       p = Z.to_nat (if bool_decide (0 ≤ i)%Z then i else i + Z.of_nat n)%Z.
Proof.
  intros Hi. unfold position.
  destruct (decide (0 ≤ i)%Z) as [Hpos|Hneg].
  - rewrite bool_decide_eq_true_2 by lia. rewrite (bool_decide_eq_true_2 (0 ≤ i)%Z) by lia.
    eexists. split; [done|]. split; [lia|done].
  - rewrite bool_decide_eq_false_2 by lia. rewrite bool_decide_eq_true_2 by lia.
    rewrite (bool_decide_eq_false_2 (0 ≤ i)%Z) by lia.
    eexists. split; [done|]. split; [lia|done].
Qed.

Lemma position_out_of_range (n : nat) (i : Z) :
  ¬ (- Z.of_nat n ≤ i < Z.of_nat n)%Z → position n i = None.
Proof.
  intros Hi. unfold position.
  rewrite !bool_decide_eq_false_2 by lia. done.
Qed.

Lemma take_total {A} (cells : list A) (rows : list nat) :
  Forall (λ p, p < length cells) rows →
  ∃ out, take cells rows = Some out ∧ length out = length rows.
Proof.
  intros Hrows. unfold take.
  destruct (mapM (λ r, cells !! r) rows) as [out|] eqn:Hout.
  - exists out. split; [done|]. symmetry. by eapply length_mapM.
  - apply mapM_None_1, Exists_exists in Hout as (p & Hp & Hnone).
    rewrite Forall_forall in Hrows. apply Hrows in Hp.
    apply lookup_ge_None in Hnone. lia.
Qed.

Lemma take_column_total (c : Column) (rows : list nat) :
  Forall (λ p, p < column_length c) rows →
  ∃ c', take_column c rows = Some c' ∧ column_length c' = length rows.
Proof.
  intros Hrows. destruct c as [cells|cells|cells]; cbn in *;
    destruct (take_total cells rows Hrows) as (out & -> & Hlen); cbn; eauto.
Qed.

Lemma take_attrs_total (cols : list (string * Column)) (rows : list nat) (n : nat) :
  Forall (λ nc : string * Column, column_length nc.2 = n) cols →
  Forall (λ p, p < n) rows →
  ∃ cols', take_attrs cols rows = Some cols' ∧
           Forall (λ nc : string * Column, column_length nc.2 = length rows) cols' ∧
           cols'.*1 = cols.*1.
Proof.
  intros Hcols Hrows. unfold take_attrs.
  induction Hcols as [|[name c] cols Hc Hcols IH]; cbn.
  - exists []. by repeat split.
  - cbn in Hc. destruct (take_column_total c rows) as (c' & -> & Hlen).
    { by rewrite Hc. }
    cbn. destruct IH as (cols' & -> & Hall & Hnames). cbn.
    eexists. split; [done|]. split; [by constructor|]. cbn. by rewrite Hnames.
Qed.

(** A selection by positions in range is a table with one row per index. *)
Lemma iloc_total (data : GeoDataFrame) (indices : list Z) :
  rectangular data →
  Forall (λ i, - Z.of_nat (len data) ≤ i < Z.of_nat (len data))%Z indices →
  ∃ sel, iloc data indices = Ok sel ∧ len sel = length indices ∧
         rectangular sel ∧ crs sel = crs data ∧
         (attrs sel).*1 = (attrs data).*1.
Proof.
  intros Hrect Hin. unfold iloc.
  destruct (mapM (position (len data)) indices) as [rows|] eqn:Hrows.
  2: { apply mapM_None_1, Exists_exists in Hrows as (i & Hi & Hnone).
       rewrite Forall_forall in Hin. apply Hin in Hi.
       destruct (position_in_range _ _ Hi) as (p & Hp & _). congruence. }
  assert (Hlt : Forall (λ p, p < len data) rows).
  { apply mapM_Some_1 in Hrows. clear Hin.
    induction Hrows as [|i p indices rows Hp _ IH]; constructor; [|done].
    unfold position in Hp. repeat case_bool_decide; simplify_eq; lia. }
  destruct (take_attrs_total (attrs data) rows (len data) Hrect Hlt)
    as (cols & -> & Hcols & Hnames).
  destruct (take_total (geometry data) rows Hlt) as (geoms & -> & Hlen).
  apply length_mapM in Hrows.
  eexists. split; [done|]. unfold len, rectangular. cbn.
  rewrite Hlen. split; [done|]. split; [by rewrite <- Hrows in Hcols |- *|]. done.
Qed.

Lemma iloc_out_of_bounds (data : GeoDataFrame) (indices : list Z) :
  Exists (λ i, ¬ (- Z.of_nat (len data) ≤ i < Z.of_nat (len data))%Z) indices →
  iloc data indices = Raise "positional indexers are out-of-bounds".
Proof.
  intros Hex. unfold iloc.
  rewrite (mapM_None_2 (position (len data)) indices); [done|].
  eapply Exists_impl; [exact Hex|]. intros i. apply position_out_of_range.
Qed.

(** The selection of one row by a position in range. *)
Lemma iloc_single (data : GeoDataFrame) (index : Z) :
  rectangular data →
  (0 ≤ index < Z.of_nat (len data))%Z →
  ∃ sel g, iloc data [index] = Ok sel ∧
           geometry data !! Z.to_nat index = Some g ∧
           geometry sel = [g].
Proof.
  intros Hrect Hin. unfold iloc.
  assert (Hpos : position (len data) index = Some (Z.to_nat index)).
  { unfold position. by rewrite bool_decide_eq_true_2 by lia. }
  assert (Hrows : mapM (position (len data)) [index] = Some [Z.to_nat index]).
  { cbn. rewrite Hpos. reflexivity. }
  rewrite Hrows.
  assert (Hlt : Forall (λ p, p < len data) [Z.to_nat index]).
  { constructor; [lia|constructor]. }
  destruct (take_attrs_total (attrs data) [Z.to_nat index] (len data) Hrect Hlt)
    as (cols & -> & _).
  destruct (geometry data !! Z.to_nat index) as [g|] eqn:Hg.
  2: { apply lookup_ge_None in Hg. unfold len in Hin. lia. }
  unfold take. cbn. rewrite Hg. cbn. eauto.
Qed.

End Selection.

(** X9. On a loaded table whose columns all have one cell per row,
    [get_lote_info] answers every index from 0 to the number of parcels
    minus one with 200, whatever the geometry library does: with the full
    dictionary for one parcel when the parcel has a geometry, and with the
    error dictionary (the text of reading the area on [None], and the count
    1) when its geometry is missing. *)
Theorem get_lote_info_in_range (L : GeoLib) (data : GeoDataFrame) (index : Z) :
  rectangular data →
  (0 ≤ index < Z.of_nat (len data))%Z →
  ∃ info, get_lote_info index (Some data)
            = ({| payload := LoteInfo info; status := 200 |}, Some data) ∧
    (∀ g, geometry data !! Z.to_nat index = Some (Some g) →
       ∃ f, info = InfoOk f ∧ total_lotes f = 1) ∧
    (geometry data !! Z.to_nat index = Some None →
       info = InfoError (no_attribute "area") 1).
Proof.
  intros Hrect Hin. unfold get_lote_info.
  rewrite bool_decide_eq_false_2 by lia.
  destruct (iloc_single data index Hrect Hin) as (sel & g & Hsel & Hg & Hgeom).
  rewrite Hsel. cbn.
  assert (Hone : len sel = 1) by (unfold len; by rewrite Hgeom).
  assert (Hraise : ∀ e, (calculate_area (start sel)).1 = Raise e ↔
                        g = None ∧ e = no_attribute "area").
  { intros e. rewrite calculate_area_measure, measure_raise_iff, union_of_stored_Raise.
    cbn. rewrite Hgeom. cbn. split.
    - intros [_ [[? _]|[[= ->] ->]]]; done.
    - intros [-> ->]. auto. }
  destruct (calculate_info_cases (start sel))
    as [(e & r' & -> & He)|(f & d & r' & -> & Hn & _ & _ & area & Ha)]; cbn.
  - apply Hraise in He as [-> ->]. eexists. split; [reflexivity|].
    rewrite Hg, Hone. split; [done|]. done.
  - eexists. split; [reflexivity|]. rewrite Hg. split.
    + intros g' _. exists f. split; [done|]. by rewrite Hn.
    + intros [= ->]. exfalso.
      assert (He : (calculate_area (start sel)).1 = Raise (no_attribute "area"))
        by (by apply Hraise).
      congruence.
Qed.

(** X10. [unir_lotes] on a non-empty list of indices between minus the
    number of parcels and the number of parcels minus one: the parcels are
    selected, one row per index.  When [unify_lots] returns a geometry the
    answer is 200 with the number of indices, that geometry and the full
    dictionary, whose parcel count is that number; when it returns [None]
    (a single parcel without geometry) the answer is 500 with the text of
    reading the GeoJSON interface on [None]; when the union raises the
    answer is 500 with its text. *)
Theorem unir_lotes_in_range (L : GeoLib) (data : GeoDataFrame)
    (fields : gmap string Json) (items : list Z) :
  rectangular data →
  fields !! "indices" = Some (JList items) →
  items ≠ [] →
  Forall (λ i, - Z.of_nat (len data) ≤ i < Z.of_nat (len data))%Z items →
  ∃ sel, iloc data items = Ok sel ∧ len sel = length items ∧
    (∀ u, (unify_lots (start sel)).1 = Ok (Some u) →
       ∃ f, unir_lotes (Ok (Object fields)) (Some data)
              = ({| payload := Uniao (length items) u (InfoOk f); status := 200 |},
                 Some data) ∧
            total_lotes f = length items) ∧
    ((unify_lots (start sel)).1 = Ok None →
       unir_lotes (Ok (Object fields)) (Some data)
         = (failure (no_attribute "__geo_interface__") 500, Some data)) ∧
    (∀ e, (unify_lots (start sel)).1 = Raise e →
       unir_lotes (Ok (Object fields)) (Some data) = (failure e 500, Some data)).
Proof.
  intros Hrect Hfields Hne Hin.
  destruct (iloc_total data items Hrect Hin) as (sel & Hsel & Hlen & _).
  exists sel. split; [done|]. split; [done|].
  assert (Htruthy : truthy (JList items) = true) by (by destruct items).
  assert (Hnz : (length items =? 0) = false) by (by destruct items).
  unfold unir_lotes. cbn. rewrite Hfields. cbn.
  rewrite !Hnz. cbn. rewrite Hsel. cbn.
  destruct (unify_lots (start sel)) as [[[u|]|e] r1] eqn:Hun; cbn.
  - split_and!; [|done..]. intros u' [= <-].
    apply unify_lots_ok in Hun as [Hu Hgdf].
    destruct (calculate_info_cases r1)
      as [(e & r' & _ & He)|(f & d & r' & -> & Hn & _)].
    { exfalso. rewrite calculate_area_measure in He.
      apply measure_raise_iff in He as [Hnone _]. congruence. }
    cbn. exists f. split; [done|]. rewrite Hn, Hgdf. exact Hlen.
  - split_and!; [done| |done]. intros _.
    destruct (calculate_info_cases r1)
      as [(e & r' & -> & _)|(f & d & r' & -> & _)]; reflexivity.
  - split_and!; [done..|]. by intros e' [= <-].
Qed.

(** X11. [unir_lotes] with an index outside that range answers 500 with the
    out-of-bounds text of the positional selection, not 400. *)
Theorem unir_lotes_out_of_range (L : GeoLib) (data : GeoDataFrame)
    (fields : gmap string Json) (items : list Z) :
  fields !! "indices" = Some (JList items) →
  Exists (λ i, ¬ (- Z.of_nat (len data) ≤ i < Z.of_nat (len data))%Z) items →
  unir_lotes (Ok (Object fields)) (Some data)
    = (failure "positional indexers are out-of-bounds" 500, Some data).
Proof.
  intros Hfields Hex.
  assert (Htruthy : truthy (JList items) = true).
  { destruct items; [by apply Exists_nil in Hex|done]. }
  assert (Hnz : (length items =? 0) = false).
  { destruct items; [by apply Exists_nil in Hex|done]. }
  unfold unir_lotes. cbn. rewrite Hfields. cbn.
  rewrite !Hnz. cbn. rewrite (iloc_out_of_bounds data items Hex). reflexivity.
Qed.

Lemma length_mask_rows {A} (mask : list bool) (cells : list A) :
  length cells = length mask →
  length (mask_rows mask cells) = length (List.filter id mask).
Proof.
  revert cells. induction mask as [|b mask IH]; intros [|c cells] Hlen; cbn in *;
    try done.
  destruct b; cbn; rewrite IH by lia; done.
Qed.

Lemma mask_rows_fmap {A B} (g : A → B) (mask : list bool) (cells : list A) :
  mask_rows mask (g <$> cells) = g <$> mask_rows mask cells.
Proof.
  revert cells. induction mask as [|b mask IH]; intros [|c cells]; cbn; try done.
  destruct b; cbn; by rewrite IH.
Qed.

Lemma mask_rows_filter {A} (f : A → bool) (l : list A) :
  mask_rows (f <$> l) l = List.filter f l.
Proof.
  induction l as [|x l IH]; cbn; [done|]. destruct (f x); by rewrite IH.
Qed.

Lemma filter_id_fmap {A} (f : A → bool) (l : list A) :
  length (List.filter id (f <$> l)) = length (List.filter f l).
Proof.
  induction l as [|x l IH]; cbn; [done|].
  unfold id at 1. destruct (f x); cbn; by f_equal.
Qed.

Lemma tolist_mask_column (mask : list bool) (c : Column) :
  tolist (mask_column mask c) = mask_rows mask (tolist c).
Proof. destruct c; cbn; by rewrite mask_rows_fmap. Qed.

Lemma length_tolist (c : Column) : length (tolist c) = column_length c.
Proof. destruct c; cbn; by rewrite length_fmap. Qed.

Lemma column_length_mask (mask : list bool) (c : Column) :
  column_length c = length mask →
  column_length (mask_column mask c) = length (List.filter id mask).
Proof. destruct c; cbn; apply length_mask_rows. Qed.

Lemma py_eqb_SStr (v : Scalar) (b : string) : py_eqb v (SStr b) = true ↔ v = SStr b.
Proof.
  destruct v; cbn; split; try done.
  - intros H. by apply String.eqb_eq in H as ->.
  - intros [= ->]. apply String.eqb_refl.
Qed.

Lemma filter_all_eq (b : string) (l : list Scalar) :
  List.filter (λ v, py_eqb v (SStr b)) l
    = replicate (length (List.filter (λ v, py_eqb v (SStr b)) l)) (SStr b).
Proof.
  induction l as [|x l IH]; cbn; [done|].
  destruct (py_eqb x (SStr b)) eqn:Hx; [|done].
  apply py_eqb_SStr in Hx as ->. cbn. by rewrite <- IH.
Qed.

Section LotesFacts.
Context {L : GeoLib}.

Lemma assoc_mask (mask : list bool) (col : string) (cols : list (string * Column)) :
  assoc col ((λ nc : string * Column, (nc.1, mask_column mask nc.2)) <$> cols)
    = mask_column mask <$> assoc col cols.
Proof.
  induction cols as [|[n c] cols IH]; cbn; [done|].
  destruct (String.eqb col n); [done|exact IH].
Qed.

Lemma assoc_rectangular (data : GeoDataFrame) (col : string) (c : Column) :
  rectangular data → assoc col (attrs data) = Some c → column_length c = len data.
Proof.
  unfold rectangular. intros Hrect. induction Hrect as [|[n c'] cols Hc _ IH]; cbn; [done|].
  destruct (String.eqb col n); [by intros [= <-]|exact IH].
Qed.

Lemma resolved_bairro_column (data : GeoDataFrame) (col : string) :
  resolve_column bairro_candidates data = Some col →
  ∃ c, assoc col (attrs data) = Some c.
Proof.
  intros Hcol.
  apply resolve_column_Some in Hcol as (before & after & Heq & Hc & _).
  apply (has_column_attr data col Hc). intros ->.
  assert (Hin : "geometry" ∈ bairro_candidates).
  { rewrite Heq. apply elem_of_app. right. left. }
  absurd_member Hin.
Qed.

End LotesFacts.

Section LotesRun.
Context {L : GeoLib}.

(** What [get_lotes_by_bairro] answers once the column is resolved. *)
Lemma get_lotes_by_bairro_run (data : GeoDataFrame) (bairro col : string) (c : Column) :
  rectangular data →
  resolve_column bairro_candidates data = Some col →
  assoc col (attrs data) = Some c →
  let mask := (λ cell, py_eqb cell (SStr bairro)) <$> tolist c in
  let n := length (List.filter (λ v, py_eqb v (SStr bairro)) (tolist c)) in
  length mask = len data ∧
  len (boolean_index data mask) = n ∧
  get_lotes_by_bairro bairro (Some data)
    = (if n =? 0
       then lotes_failure ("Nenhum lote encontrado para o bairro " ++ bairro) 404
       else {| lotes_payload := Lotes bairro n (boolean_index data mask);
               lotes_status := 200 |}, Some data).
Proof.
  intros Hrect Hcol Hc. cbv zeta.
  set (mask := (λ cell, py_eqb cell (SStr bairro)) <$> tolist c).
  assert (Hmask : length mask = len data).
  { unfold mask. rewrite length_fmap, length_tolist.
    by apply (assoc_rectangular data col). }
  assert (Hlen : len (boolean_index data mask)
                 = length (List.filter (λ v, py_eqb v (SStr bairro)) (tolist c))).
  { unfold len. cbn. rewrite length_mask_rows by (by rewrite Hmask).
    apply filter_id_fmap. }
  split; [done|]. split; [done|]. rewrite <- Hlen.
  unfold get_lotes_by_bairro. rewrite Hcol. unfold getitem. rewrite Hc. cbn.
  fold mask. by destruct (_ =? 0).
Qed.

End LotesRun.

(** X12. [get_lotes_by_bairro] on a loaded table, with [n] the number of
    rows whose cell in the resolved column equals the requested name: it
    answers 404 when [n] is 0, and otherwise 200 with that name, [n], and a
    table of [n] rows whose cells in that column are all the requested
    name. *)
Theorem get_lotes_by_bairro_matches (L : GeoLib) (data : GeoDataFrame)
    (bairro col : string) :
  rectangular data →
  resolve_column bairro_candidates data = Some col →
  ∃ c, assoc col (attrs data) = Some c ∧
    let n := length (List.filter (λ v, py_eqb v (SStr bairro)) (tolist c)) in
    (n = 0 →
     get_lotes_by_bairro bairro (Some data)
       = (lotes_failure ("Nenhum lote encontrado para o bairro " ++ bairro) 404,
          Some data)) ∧
    (n ≠ 0 →
     ∃ filtered,
       get_lotes_by_bairro bairro (Some data)
         = ({| lotes_payload := Lotes bairro n filtered; lotes_status := 200 |},
            Some data) ∧
       len filtered = n ∧
       rectangular filtered ∧
       ∃ c', assoc col (attrs filtered) = Some c' ∧
             tolist c' = replicate n (SStr bairro)).
Proof.
  intros Hrect Hcol.
  destruct (resolved_bairro_column data col Hcol) as [c Hc].
  exists c. split; [done|].
  destruct (get_lotes_by_bairro_run data bairro col c Hrect Hcol Hc)
    as (Hmask & Hlen & Hrun).
  cbv zeta in *. rewrite Hrun. split.
  - intros ->. reflexivity.
  - intros Hn. rewrite (proj2 (Nat.eqb_neq _ 0) Hn).
    eexists. split; [reflexivity|]. split; [exact Hlen|]. split.
    + unfold rectangular. rewrite Hlen. cbn. apply Forall_fmap.
      eapply Forall_impl; [exact Hrect|]. intros [name c0] Hc0. cbn in *.
      rewrite column_length_mask by (by rewrite Hmask).
      rewrite <- Hlen. unfold len. cbn.
      symmetry. apply length_mask_rows. by rewrite Hmask.
    + exists (mask_column ((λ cell, py_eqb cell (SStr bairro)) <$> tolist c) c). split.
      * cbn. by rewrite assoc_mask, Hc.
      * rewrite tolist_mask_column, mask_rows_filter. apply filter_all_eq.
Qed.

(** X13. Every text that [get_bairros] lists is answered by
    [get_lotes_by_bairro] with 200 and at least one parcel. *)
Theorem listed_bairro_has_lots (L : GeoLib) (data : GeoDataFrame)
    (bairros : list Scalar) (total : nat) (b : string) :
  rectangular data →
  (get_bairros (Some data)).1
    = {| payload := Bairros bairros total; status := 200 |} →
  SStr b ∈ bairros →
  ∃ n filtered,
    (get_lotes_by_bairro b (Some data)).1
      = {| lotes_payload := Lotes b n filtered; lotes_status := 200 |} ∧
    0 < n ∧ len filtered = n.
Proof.
  intros Hrect Hlist Hb. unfold get_bairros in Hlist. cbn [fst] in Hlist.
  destruct (resolve_column bairro_candidates data) as [col|] eqn:Hcol;
    [|cbn in Hlist; discriminate Hlist].
  destruct (resolved_bairro_column data col Hcol) as [c Hc].
  unfold getitem in Hlist. rewrite Hc in Hlist. cbn in Hlist.
  pose proof (unique_kind _ _ (dropna_kind c)) as Hkind.
  destruct (sorted_sorts _ _ Hkind) as (l' & Hsort & Hperm & _).
  rewrite Hsort in Hlist. cbn in Hlist. injection Hlist as <- _.
  rewrite <- Hperm in Hb. apply unique_from_elem in Hb.
  apply list_elem_of_In, List.filter_In in Hb as [Hb _].
  destruct (get_lotes_by_bairro_run data b col c Hrect Hcol Hc)
    as (_ & Hlen & Hrun).
  cbv zeta in *.
  assert (Hpos : 0 < length (List.filter (λ v, py_eqb v (SStr b)) (tolist c))).
  { assert (Hin : In (SStr b) (List.filter (λ v, py_eqb v (SStr b)) (tolist c))).
    { apply List.filter_In. split; [done|]. by apply py_eqb_SStr. }
    destruct (List.filter _ _); [done|cbn; lia]. }
  rewrite Hrun. cbn. rewrite (proj2 (Nat.eqb_neq _ 0)) by lia.
  eexists _, _. split; [reflexivity|]. split; [done|exact Hlen].
Qed.

Lemma mapM_result_cases {A B} (f : A → result B) (l : list A) :
  (∃ k, mapM f l = Ok k ∧ Forall2 (λ x y, f x = Ok y) l k) ∨
  (∃ e x, mapM f l = Raise e ∧ x ∈ l ∧ f x = Raise e).
Proof.
  induction l as [|x l IH].
  - left. exists []. by split.
  - assert (Hcons : mapM f (x :: l)
                    = match f x with
                      | Ok y => match mapM f l with
                                | Ok k => Ok (y :: k)
                                | Raise e => Raise e
                                end
                      | Raise e => Raise e
                      end).
    { cbn. unfold mbind, result_mbind, result_bind.
      destruct (f x); [destruct (mapM f l)|]; reflexivity. }
    rewrite Hcons. clear Hcons.
    destruct (f x) as [y|e] eqn:Hx.
    + destruct IH as [(k & -> & Hk)|(e & x' & -> & Hin & Hx')].
      * left. exists (y :: k). split; [done|]. by constructor.
      * right. exists e, x'. split; [done|]. split; [by right|done].
    + right. exists e, x. split; [done|]. split; [left|done].
Qed.

(** X14. [load_geojson] returns nothing exactly when the file is missing,
    reading it raises, it has no geometry column, one of the encoded
    geometries does not decode, or the transformation to EPSG:4326 cannot
    be built.  Otherwise the table has one row per cell of the geometry
    column, without geometry exactly where the cell is null, the attribute
    columns of the file and the CRS EPSG:4326, and its columns have one cell
    per row when those of the file have. *)
Theorem load_geojson_outcomes (L : GeoLib) (file : DataFile) :
  (load_geojson file = None ↔
   file = FileMissing ∨
   (∃ e, file = FilePresent (Raise e)) ∨
   (∃ raw, file = FilePresent (Ok raw) ∧
      (raw_geometry raw = None ∨
       (∃ wkb, raw_geometry raw = Some wkb ∧
          ((∃ w e, Some w ∈ wkb ∧ from_wkb w = Raise e) ∨
           (∃ e, transformer "EPSG:31984" "EPSG:4326" = Raise e)))))) ∧
  (∀ store, load_geojson file = Some store →
     ∃ raw wkb, file = FilePresent (Ok raw) ∧ raw_geometry raw = Some wkb ∧
       len store = length wkb ∧
       (∀ i, geometry store !! i = Some None ↔ wkb !! i = Some None) ∧
       attrs store = raw_attrs raw ∧
       crs store = Some "EPSG:4326" ∧
       (Forall (λ nc : string * Column, column_length nc.2 = length wkb)
               (raw_attrs raw) → rectangular store)).
Proof.
  assert (Hcell : ∀ cell e, from_wkb_cell cell = Raise e ↔
                            ∃ w, cell = Some w ∧ from_wkb w = Raise e).
  { intros [w|] e; cbn.
    - destruct (from_wkb w) as [g|e'] eqn:Hw; cbn; split.
      + done.
      + intros (w0 & [= <-] & H). congruence.
      + intros [= ->]. eauto.
      + intros (w0 & [= <-] & H). congruence.
    - split; [done|]. by intros (w0 & [=] & _). }
  assert (Hnull : ∀ cell, from_wkb_cell cell = Ok None ↔ cell = None).
  { intros [w|]; cbn; [|done]. destruct (from_wkb w); cbn; split; done. }
  destruct file as [|[raw|e]]; cbn.
  { split; [split; [auto|done]|done]. }
  2: { split; [split; [eauto|done]|done]. }
  destruct (raw_geometry raw) as [wkb|] eqn:Hwkb; cbn.
  2: { split; [|done]. split; [|done]. intros _. right. right. eauto. }
  unfold mbind at 1, result_mbind at 1, result_bind at 1.
  destruct (mapM_result_cases from_wkb_cell wkb)
    as [(geo & -> & Hgeo)|(e & cell & -> & Hw & He)].
  2: { split; [|done]. split; [|done]. intros _. right. right.
       apply Hcell in He as (w & -> & He).
       exists raw. split; [done|]. right. exists wkb. split; [done|]. left. eauto. }
  unfold to_crs. cbn.
  destruct (transformer "EPSG:31984" "EPSG:4326") as [f|e] eqn:Hf; cbn.
  2: { split; [|done]. split; [|done]. intros _. right. right.
       exists raw. split; [done|]. right. exists wkb. split; [done|]. right. eauto. }
  apply Forall2_length in Hgeo as Hlen.
  split.
  - split; [done|].
    intros [?|[[e ?]|(raw' & [= <-] & [Hnone|(wkb' & Hsome & Hbad)])]]; try done.
    + congruence.
    + rewrite Hwkb in Hsome. injection Hsome as <-.
      destruct Hbad as [(w & e & Hw & He)|[e He]]; [|done].
      apply list_elem_of_lookup_1 in Hw as [i Hi].
      destruct (Forall2_lookup_l _ _ _ _ _ Hgeo Hi) as (g & _ & Hg).
      cbn in Hg. rewrite He in Hg. discriminate.
  - intros store [= <-]. exists raw, wkb. split; [done|]. split; [done|].
    unfold len, rectangular. cbn. rewrite length_fmap. split; [done|].
    split; [|by rewrite Hlen].
    intros i. rewrite list_lookup_fmap. split.
    + intros Hi. destruct (geo !! i) as [[g|]|] eqn:Hgi; try done.
      destruct (Forall2_lookup_r _ _ _ _ _ Hgeo Hgi) as (cell & -> & Hc).
      f_equal. by apply Hnull.
    + intros Hi.
      destruct (Forall2_lookup_l _ _ _ _ _ Hgeo Hi) as (g & -> & Hg).
      cbn in Hg. by injection Hg as <-.
Qed.

Section CalculatorFacts.
Context {P : FloatParser}.

Lemma as_number_first (v : Scalar) (vs : list Scalar) :
  as_number (Many (v :: vs)) = as_number (One v).
Proof. reflexivity. Qed.

End CalculatorFacts.

(** X15. A parameter bound to a list counts as its first element: the two
    methods return what they return with the canonical key bound to that
    element alone; bound to the empty list they return nothing. *)
Theorem list_parameter_uses_first (P : FloatParser) (area : float)
    (p : gmap string PyVal) :
  (∀ v vs, p !! "coeficiente" = Some (Many (v :: vs)) →
     calculate_buildable_area {| area_terreno := area; params := p |}
       = calculate_buildable_area
           {| area_terreno := area; params := <["coeficiente" := One v]> p |}) ∧
  (∀ v vs, p !! "taxa_ocupacao" = Some (Many (v :: vs)) →
     calculate_footprint {| area_terreno := area; params := p |}
       = calculate_footprint
           {| area_terreno := area; params := <["taxa_ocupacao" := One v]> p |}) ∧
  (p !! "coeficiente" = Some (Many []) →
     calculate_buildable_area {| area_terreno := area; params := p |} = None) ∧
  (p !! "taxa_ocupacao" = Some (Many []) →
     calculate_footprint {| area_terreno := area; params := p |} = None).
Proof.
  split_and!.
  - intros v vs Hp. rewrite !calculate_buildable_area_eq. cbn [params area_terreno].
    unfold dict_get at 1 3. rewrite Hp, lookup_insert_eq. reflexivity.
  - intros v vs Hp. rewrite !calculate_footprint_eq. cbn [params area_terreno].
    unfold dict_get at 1 3. rewrite Hp, lookup_insert_eq. reflexivity.
  - intros Hp. rewrite calculate_buildable_area_eq. cbn [params area_terreno].
    unfold dict_get at 1. rewrite Hp. reflexivity.
  - intros Hp. rewrite calculate_footprint_eq. cbn [params area_terreno].
    unfold dict_get at 1. rewrite Hp. reflexivity.
Qed.

(** X16. [calculate_buildable_area] on the dictionary that
    [extract_zoning_info] returns uses the first non-missing cell of the
    column ["coeficiente"]; when there is none, the first non-missing cell
    of ["ca"]; when there is none either, the coefficient 1.0. *)
Theorem buildable_area_of_extracted (L : GeoLib) (P : FloatParser)
    (s : TerrainAnalyzer) (area : float) :
  let calc := {| area_terreno := area; params := extract_zoning_info s |} in
  let of_first (v : Scalar) :=
    match as_number (One v) with
    | Ok x => Some (PyFloat.round (PyFloat.mul area x) 2)
    | Raise _ => None
    end in
  (∀ v rest, column_values (gdf s) "coeficiente" = v :: rest →
     calculate_buildable_area calc = of_first v) ∧
  (∀ v rest, column_values (gdf s) "coeficiente" = [] →
     column_values (gdf s) "ca" = v :: rest →
     calculate_buildable_area calc = of_first v) ∧
  (column_values (gdf s) "coeficiente" = [] → column_values (gdf s) "ca" = [] →
     calculate_buildable_area calc
       = Some (PyFloat.round (PyFloat.mul area (PyFloat.lit 10 (-1))) 2)).
Proof.
  cbv zeta.
  destruct (extract_zoning_info_eq s) as (d & Heq & Hl).
  assert (Hca : extract_zoning_info s !! "ca" = recorded (column_values (gdf s) "ca")).
  { rewrite Heq. destruct (bool_decide (d = ∅)).
    - rewrite lookup_insert_ne by done. rewrite Hl. reflexivity.
    - rewrite Hl. reflexivity. }
  assert (Hco : extract_zoning_info s !! "coeficiente"
                = recorded (column_values (gdf s) "coeficiente")).
  { rewrite Heq. destruct (bool_decide (d = ∅)).
    - rewrite lookup_insert_ne by done. rewrite Hl. reflexivity.
    - rewrite Hl. reflexivity. }
  split_and!.
  - intros v rest Hv. rewrite calculate_buildable_area_eq. cbn [params area_terreno].
    unfold dict_get at 1. rewrite Hco, Hv. by destruct rest.
  - intros v rest Hnone Hv. rewrite calculate_buildable_area_eq.
    cbn [params area_terreno]. unfold dict_get. rewrite Hco, Hca, Hnone, Hv.
    by destruct rest.
  - intros Hnone Hnone'. rewrite calculate_buildable_area_eq.
    cbn [params area_terreno]. unfold dict_get. rewrite Hco, Hca, Hnone, Hnone'.
    reflexivity.
Qed.

(** X2. When the reprojection to EPSG:31984 goes through, [calculate_area]
    and [calculate_perimeter] measure the reprojected geometry of a
    one-parcel selection, and for any other selection the union of the
    reprojected geometries; when that union raises they fall back on the
    stored geometry and the degree factors. *)
Theorem metric_path (L : GeoLib) (r r1 : Run) (src : string)
    (f : Geometry → Geometry) :
  ensure_unified r = (Ok tt, r1) →
  crs (gdf (self r)) = Some src →
  transformer src "EPSG:31984" = Ok f →
  let metric := fmap (M := option) f <$> geometry (gdf (self r)) in
  (∀ g, geometry (gdf (self r)) = [Some g] →
     (calculate_area r).1 = Ok (PyFloat.round (geom_area (f g)) 2) ∧
     (calculate_perimeter r).1 = Ok (PyFloat.round (geom_length (f g)) 2)) ∧
  (length (geometry (gdf (self r))) ≠ 1 → ∀ u, unary_union metric = Ok u →
     (calculate_area r).1 = Ok (PyFloat.round (geom_area u) 2) ∧
     (calculate_perimeter r).1 = Ok (PyFloat.round (geom_length u) 2)) ∧
  (length (geometry (gdf (self r))) ≠ 1 → ∀ e, unary_union metric = Raise e →
     ∃ g, unified_geometry (self r1) = Some g ∧
       (calculate_area r).1
         = Ok (PyFloat.round
                 (PyFloat.mul (geom_area g) (PyFloat.of_Z (111320 * 111320))) 2) ∧
       (calculate_perimeter r).1
         = Ok (PyFloat.round
                 (PyFloat.mul (geom_length g) (PyFloat.of_Z 111320)) 2)).
Proof.
  intros Hen Hcrs Hf. cbv zeta.
  rewrite calculate_area_measure, calculate_perimeter_measure.
  rewrite !(measure_metric _ _ _ r r1 src f Hen Hcrs Hf). cbv zeta.
  split_and!.
  - intros g Hg. rewrite Hg. done.
  - intros Hne u Hu. rewrite (proj2 (Nat.eqb_neq _ 1) Hne), Hu. done.
  - intros Hne e He. rewrite (proj2 (Nat.eqb_neq _ 1) Hne), He.
    destruct (ensure_unified_ok _ _ Hen) as [g Hg].
    { intros Hnone. by rewrite Hnone in Hne. }
    exists g. by rewrite Hg.
Qed.

(** X7. [get_centroid] and [get_bounds] never raise.  With a unified
    geometry stored they return its centroid and bounds and leave the
    object and the library alone; with none stored they unify first and
    return [None] when that raises or gives [None]. *)
Theorem centroid_and_bounds (L : GeoLib) (r : Run) :
  (∀ g, unified_geometry (self r) = Some g →
     get_centroid r = (Ok (Some (geom_centroid g)), r) ∧
     get_bounds r = (Ok (Some (geom_bounds g)), r)) ∧
  (unified_geometry (self r) = None →
   (get_centroid r).1 = Ok match (unify_lots r).1 with
                           | Ok (Some u) => Some (geom_centroid u)
                           | _ => None
                           end ∧
   (get_bounds r).1 = Ok match (unify_lots r).1 with
                         | Ok (Some u) => Some (geom_bounds u)
                         | _ => None
                         end).
Proof.
  destruct (get_centroid_cases r) as [Hc1 Hc2].
  destruct (get_bounds_cases r) as [Hb1 Hb2].
  split; [intros g Hg|intros Hn]; split; auto.
Qed.

(** X8. [calculate_info] never assigns [self.gdf]; and with a unified
    geometry stored, [calculate_area], [calculate_perimeter] and
    [calculate_info] leave the object as it was, so the stored geometry is
    never replaced by them. *)
Theorem stored_state_kept (L : GeoLib) (r : Run) :
  gdf (self (calculate_info r).2) = gdf (self r) ∧
  (∀ g, unified_geometry (self r) = Some g →
     self (calculate_area r).2 = self r ∧
     self (calculate_perimeter r).2 = self r ∧
     self (calculate_info r).2 = self r).
Proof.
  split; [apply keeps_gdf_calculate_info|].
  intros g Hg. rewrite calculate_area_measure, calculate_perimeter_measure.
  destruct (measure_cached "area" geom_area (PyFloat.of_Z (111320 * 111320)) r g Hg)
    as (a & ->).
  destruct (measure_cached "length" geom_length (PyFloat.of_Z 111320) r g Hg)
    as (p & ->).
  split; [done|]. split; [done|]. by apply (calculate_info_cached r g).
Qed.

(** X4. The additional information of a full dictionary is missing exactly
    when no bookkeeping column has a non-missing cell; otherwise it maps
    each bookkeeping column that has one to the list of its distinct
    non-missing values, and holds no other key. *)
Theorem additional_info_entries (L : GeoLib) (r : Run) (f : InfoFields) :
  (calculate_info r).1 = Ok (InfoOk f) →
  (informacoes_adicionais f = None ↔
   ∀ col, col ∈ info_columns → column_values (gdf (self r)) col = []) ∧
  (∀ d, informacoes_adicionais f = Some d →
     ∀ k, d !! k = if bool_decide (k ∈ info_columns)
                   then match unique (column_values (gdf (self r)) k) with
                        | [] => None
                        | vs => Some vs
                        end
                   else None).
Proof.
  intros Hf.
  destruct (calculate_info_cases r)
    as [(e & r' & He & _)|(f' & d & r' & Hf' & _ & Hd & Hadd & _)].
  { rewrite He in Hf. discriminate. }
  rewrite Hf' in Hf. injection Hf as ->.
  destruct (info_loop (gdf (self r))) as (d' & Hd' & Hl).
  rewrite Hd in Hd'. injection Hd' as <-.
  rewrite Hadd. split.
  - case_bool_decide as Hempty.
    + split; [|done]. intros _ col Hcol. subst d.
      specialize (Hl col). rewrite lookup_empty, bool_decide_eq_true_2 in Hl by done.
      apply unique_nil. by destruct (unique (column_values (gdf (self r)) col)).
    + split; [done|]. intros Hall. exfalso. apply Hempty.
      apply map_eq. intros k. rewrite Hl, lookup_empty.
      case_bool_decide as Hk; [|done]. by rewrite (proj2 (unique_nil _) (Hall k Hk)).
  - intros d0 Hd0. case_bool_decide; [done|]. injection Hd0 as <-. exact Hl.
Qed.

(** Concrete runs. *)

Lemma rectangular_two_parcels : rectangular Grid.two_parcels.
Proof. repeat constructor. Qed.

Lemma rectangular_partly_mapped : rectangular Grid.partly_mapped.
Proof. repeat constructor. Qed.

Lemma area_perimeter_raise_iff_witness :
  (calculate_area (start Grid.unmapped_parcel)).1 = Raise (no_attribute "area") ∧
  (calculate_perimeter (start Grid.unmapped_parcel)).1
    = Raise (no_attribute "length").
Proof.
  split.
  - apply (area_perimeter_raise_iff Grid.lib (start Grid.unmapped_parcel)).
    split; [reflexivity|]. right. split; reflexivity.
  - apply (area_perimeter_raise_iff Grid.lib (start Grid.unmapped_parcel)).
    split; [reflexivity|]. right. split; reflexivity.
Defined.

Lemma calculate_info_error_iff_witness :
  (calculate_info (start Grid.unmapped_parcel)).1
    = Ok (InfoError (no_attribute "area") 1) ∧
  ∃ f, (calculate_info (start Grid.one_parcel)).1 = Ok (InfoOk f).
Proof.
  split.
  - apply (calculate_info_error_iff Grid.lib (start Grid.unmapped_parcel)).
    split; [reflexivity|]. split; [reflexivity|]. right. split; reflexivity.
  - apply (calculate_info_error_iff Grid.lib (start Grid.one_parcel)).
    right. eexists. reflexivity.
Defined.

Lemma metric_path_witness :
  ∃ metric u, to_crs Grid.two_parcels "EPSG:31984" = Ok metric ∧
    unary_union (geometry metric) = Ok u ∧
    (calculate_area (start Grid.two_parcels)).1
      = Ok (PyFloat.round (geom_area u) 2) ∧
    (calculate_perimeter (start Grid.two_parcels)).1
      = Ok (PyFloat.round (geom_length u) 2).
Proof.
  destruct (metric_path Grid.lib (start Grid.two_parcels)
              (ensure_unified (start Grid.two_parcels)).2 "EPSG:4326"
              Grid.to_projected eq_refl eq_refl eq_refl) as (_ & Hunion & _).
  eexists _, _. split; [reflexivity|]. split; [reflexivity|].
  apply Hunion; [cbn; lia|reflexivity].
Defined.

Lemma get_lote_info_in_range_witness :
  (∃ f, get_lote_info 1 (Some Grid.partly_mapped)
          = ({| payload := LoteInfo (InfoOk f); status := 200 |},
             Some Grid.partly_mapped) ∧
        total_lotes f = 1) ∧
  get_lote_info 0 (Some Grid.partly_mapped)
    = ({| payload := LoteInfo (InfoError (no_attribute "area") 1); status := 200 |},
       Some Grid.partly_mapped).
Proof.
  split.
  - destruct (get_lote_info_in_range Grid.lib Grid.partly_mapped 1
                rectangular_partly_mapped) as (info & Hrun & Hgeom & _);
      [cbn; lia|].
    destruct (Hgeom _ eq_refl) as (f & -> & Hone). eauto.
  - destruct (get_lote_info_in_range Grid.lib Grid.partly_mapped 0
                rectangular_partly_mapped) as (info & Hrun & _ & Hmissing);
      [cbn; lia|].
    by rewrite <- (Hmissing eq_refl).
Defined.

Lemma unir_lotes_in_range_witness :
  (∃ sel, iloc Grid.two_parcels [0; -1]%Z = Ok sel ∧ len sel = 2 ∧
     ∀ u, (unify_lots (start sel)).1 = Ok (Some u) →
       ∃ f, unir_lotes (Ok (Object {[ "indices" := JList [0; -1]%Z ]}))
              (Some Grid.two_parcels)
              = ({| payload := Uniao 2 u (InfoOk f); status := 200 |},
                 Some Grid.two_parcels) ∧
            total_lotes f = 2) ∧
  unir_lotes (Ok (Object {[ "indices" := JList [0]%Z ]})) (Some Grid.partly_mapped)
    = (failure (no_attribute "__geo_interface__") 500, Some Grid.partly_mapped).
Proof.
  split.
  - destruct (unir_lotes_in_range Grid.lib Grid.two_parcels
                {[ "indices" := JList [0; -1]%Z ]} [0; -1]%Z rectangular_two_parcels)
      as (sel & Hsel & Hlen & Hsome & _).
    + reflexivity.
    + done.
    + repeat constructor; cbn; lia.
    + eauto.
  - destruct (unir_lotes_in_range Grid.lib Grid.partly_mapped
                {[ "indices" := JList [0]%Z ]} [0]%Z rectangular_partly_mapped)
      as (sel & Hsel & _ & _ & Hnone & _).
    + reflexivity.
    + done.
    + repeat constructor; cbn; lia.
    + apply Hnone. cbn in Hsel. injection Hsel as <-. reflexivity.
Defined.

Lemma unir_lotes_out_of_range_witness :
  unir_lotes (Ok (Object {[ "indices" := JList [0; 2]%Z ]})) (Some Grid.two_parcels)
    = (failure "positional indexers are out-of-bounds" 500, Some Grid.two_parcels).
Proof.
  apply (unir_lotes_out_of_range Grid.lib Grid.two_parcels
           {[ "indices" := JList [0; 2]%Z ]} [0; 2]%Z).
  - reflexivity.
  - right. left. cbn. lia.
Defined.

Lemma get_lotes_by_bairro_matches_witness :
  ∃ c, assoc "BAIRRO" (attrs Grid.two_parcels) = Some c ∧
    let n := length (List.filter (λ v, py_eqb v (SStr "Centro")) (tolist c)) in
    (n = 0 →
     get_lotes_by_bairro "Centro" (Some Grid.two_parcels)
       = (lotes_failure ("Nenhum lote encontrado para o bairro " ++ "Centro") 404,
          Some Grid.two_parcels)) ∧
    (n ≠ 0 →
     ∃ filtered,
       get_lotes_by_bairro "Centro" (Some Grid.two_parcels)
         = ({| lotes_payload := Lotes "Centro" n filtered; lotes_status := 200 |},
            Some Grid.two_parcels) ∧
       len filtered = n ∧
       rectangular filtered ∧
       ∃ c', assoc "BAIRRO" (attrs filtered) = Some c' ∧
             tolist c' = replicate n (SStr "Centro")).
Proof.
  apply (get_lotes_by_bairro_matches Grid.lib Grid.two_parcels "Centro" "BAIRRO"
           rectangular_two_parcels).
  reflexivity.
Defined.

Lemma listed_bairro_has_lots_witness :
  ∃ n filtered,
    (get_lotes_by_bairro "Centro" (Some Grid.two_parcels)).1
      = {| lotes_payload := Lotes "Centro" n filtered; lotes_status := 200 |} ∧
    0 < n ∧ len filtered = n.
Proof.
  apply (listed_bairro_has_lots Grid.lib Grid.two_parcels [SStr "Centro"] 1 "Centro"
           rectangular_two_parcels).
  - reflexivity.
  - left.
Defined.

Lemma additional_info_entries_witness :
  ∃ f, (calculate_info (start Grid.two_parcels)).1 = Ok (InfoOk f) ∧
       informacoes_adicionais f = None.
Proof.
  eexists. split; [reflexivity|].
  apply (additional_info_entries Grid.lib (start Grid.two_parcels)); [reflexivity|].
  intros col Hcol. unfold info_columns in Hcol.
  repeat (apply elem_of_cons in Hcol as [->|Hcol]; [reflexivity|]).
  by apply elem_of_nil in Hcol.
Defined.

